(** * Tsinghua-Daimler ingestor (vod_converter/tsinghua_daimler.py)

    A shallow embedding of [TsinghuaDaimlerIngestor]: directory validation,
    path construction, index loading, label parsing with the four one-sided
    clamps, the degenerate-box filter and the top-level [ingest] loop.

    Python values are modelled as the interpreter has them:
    - [str] as [string]; a character is a code point below 256;
    - [int] as [Z]; [float] as the binary64 values of [spec_float];
    - a number that is an [int] or a [float] as [pynum], compared exactly,
      the way Python compares an [int] with a [float];
    - a raised exception as the [Raise] branch of [result];
    - the file system and the image decoder as a [FileSystem] record,
      whose operations return what they read or the exception they raise;
    - [json.load] and [float] applied to a [str] as parameters of the
      section that holds the ingestor. *)

From Stdlib Require Import ZArith QArith Bool List String Ascii Lia.
From Stdlib Require Import Floats.SpecFloat.
Import ListNotations.

Local Open Scope string_scope.
Local Open Scope Z_scope.

(** ** Exceptions and the error monad *)

Inductive exn : Type :=
| OSError (path : string)
| UnicodeDecodeError
| JSONDecodeError
| RecursionError
| KeyError (key : string)
| TypeError
| ValueError
| OverflowError
| Exception (name : string).

Inductive result (A : Type) : Type :=
| Ok (a : A)
| Raise (e : exn).

Arguments Ok {A} a.
Arguments Raise {A} e.

Definition bind {A B : Type} (m : result A) (k : A -> result B) : result B :=
  match m with
  | Ok a => k a
  | Raise e => Raise e
  end.

Notation "x <- m ;; k" := (bind m (fun x => k))
  (at level 61, m at next level, right associativity).

Definition of_option {A : Type} (e : exn) (o : option A) : result A :=
  match o with
  | Some a => Ok a
  | None => Raise e
  end.

(** A [for] loop whose body updates the state it carries; an exception
    leaves the loop. *)
Fixpoint for_each {A S : Type} (body : S -> A -> result S) (xs : list A)
         (st : S) : result S :=
  match xs with
  | [] => Ok st
  | x :: xs' => st' <- body st x ;; for_each body xs' st'
  end.

(** The loop [for x in xs: acc.append(f(x))]. *)
Definition for_append {A B : Type} (f : A -> result B) (xs : list A)
           (acc : list B) : result (list B) :=
  for_each (fun acc x => y <- f x ;; Ok (acc ++ [y])%list) xs acc.

(** The same loop as a map in the error monad. *)
Fixpoint mapM {A B : Type} (f : A -> result B) (xs : list A)
  : result (list B) :=
  match xs with
  | [] => Ok []
  | x :: xs' => y <- f x ;; ys <- mapM f xs' ;; Ok (y :: ys)
  end.

(** ** Python strings *)

Definition LF : ascii := ascii_of_nat 10.

(** [str.isspace] on the code points below 256. *)
Definition is_space (c : ascii) : bool :=
  let n := nat_of_ascii c in
  ((9 <=? n) && (n <=? 13))%nat || ((28 <=? n) && (n <=? 32))%nat
  || (n =? 133)%nat || (n =? 160)%nat.

Fixpoint lstrip (s : string) : string :=
  match s with
  | EmptyString => EmptyString
  | String c s' => if is_space c then lstrip s' else s
  end.

Fixpoint rstrip (s : string) : string :=
  match s with
  | EmptyString => EmptyString
  | String c s' =>
      match rstrip s' with
      | EmptyString => if is_space c then EmptyString else String c EmptyString
      | r => String c r
      end
  end.

(** [s.strip()] *)
Definition strip (s : string) : string := rstrip (lstrip s).

(** [s.split(sep)] for a separator of one character: never the empty list. *)
Fixpoint str_split (sep : ascii) (s : string) : list string :=
  match s with
  | EmptyString => [EmptyString]
  | String c s' =>
      if Ascii.eqb c sep then EmptyString :: str_split sep s'
      else match str_split sep s' with
           | [] => [String c EmptyString]
           | x :: xs => String c x :: xs
           end
  end.

(** [s[:-n]] for [n > 0]: the first [len(s) - n] characters, none when
    [len(s) <= n]. *)
Definition slice_to_neg (n : nat) (s : string) : string :=
  substring 0 (String.length s - n) s.

(** ** The world outside the interpreter *)

Record FileSystem : Type := {
  (** [os.path.isdir] *)
  isdir : string -> bool;
  (** [open(path).read()] in text mode: the text, or the exception that
      [open] or [read] raises *)
  open_read : string -> result string;
  (** [PIL.Image.open(path)] then [(width, height)], or the exception that
      it raises *)
  image_open : string -> result (Z * Z)
}.

(** ** Directory validation *)

Definition expected_dirs : list string :=
  [ "labelData/train/tsinghuaDaimlerDataset";
    "leftImg8bit/train/tsinghuaDaimlerDataset";
    "labelData/valid/tsinghuaDaimlerDataset";
    "leftImg8bit/valid/tsinghuaDaimlerDataset";
    "labelData/test/tsinghuaDaimlerDataset";
    "leftImg8bit/test/tsinghuaDaimlerDataset" ].

Definition missing_message (subdir path : string) : string :=
  "Expected subdirectory " ++ subdir ++ " within " ++ path.

(** The loop of [validate] over a list of directories. *)
Fixpoint validate_dirs (fs : FileSystem) (path : string) (dirs : list string)
  : bool * option string :=
  match dirs with
  | [] => (true, None)
  | subdir :: rest =>
      if negb (isdir fs (path ++ "/" ++ subdir))
      then (false, Some (missing_message subdir path))
      else validate_dirs fs path rest
  end.

Definition validate (fs : FileSystem) (path : string) : bool * option string :=
  validate_dirs fs path expected_dirs.

(** ** Paths *)

Definition get_image_path (root sub_dir image_id image_ext : string) : string :=
  root ++ "/leftImg8bit/" ++ sub_dir ++ "/tsinghuaDaimlerDataset/"
       ++ image_id ++ "_leftImg8bit." ++ image_ext.

Definition get_label_path (root sub_dir image_id : string) : string :=
  root ++ "/labelData/" ++ sub_dir ++ "/tsinghuaDaimlerDataset/"
       ++ image_id ++ "_labelData.json".

(** ** Index files *)

Definition sub_dirs : list string := ["train"; "valid"; "test"].

Definition index_path (root sub_dir : string) : string :=
  root ++ "/" ++ sub_dir ++ ".txt".

Definition suffix : string := "_leftImg8bit".

(** The identifiers of one index file's content. *)
Definition image_ids_of (content : string) : list string :=
  map (slice_to_neg (String.length suffix)) (str_split LF (strip content)).

Definition _get_image_ids (fs : FileSystem) (root : string)
  : result (list (string * list string)) :=
  for_append
    (fun sub_dir =>
       let path := index_path root sub_dir in
       content <- open_read fs path ;;
       Ok (sub_dir, image_ids_of content))
    sub_dirs [].

(** ** Python numbers *)

(** The value of a number: a rational, an infinity, or not a number. *)
Inductive xreal : Type :=
| XNaN
| XNegInf
| XFin (q : Q)
| XPosInf.

(** The rational [(-1)^s * m * 2^e]. *)
Definition F2Q (s : bool) (m : positive) (e : Z) : Q :=
  let z := cond_Zopp s (Zpos m) in
  match e with
  | Zneg p => Qmake z (2 ^ p)%positive
  | _ => inject_Z (z * 2 ^ e)
  end.

Definition float_value (f : spec_float) : xreal :=
  match f with
  | S754_zero _ => XFin 0
  | S754_infinity s => if s then XNegInf else XPosInf
  | S754_nan => XNaN
  | S754_finite s m e => XFin (F2Q s m e)
  end.

(** Comparison of two values; [None] when one of them is not a number. *)
Definition xcompare (a b : xreal) : option comparison :=
  match a, b with
  | XNaN, _ | _, XNaN => None
  | XNegInf, XNegInf => Some Eq
  | XNegInf, _ => Some Lt
  | _, XNegInf => Some Gt
  | XPosInf, XPosInf => Some Eq
  | XPosInf, _ => Some Gt
  | _, XPosInf => Some Lt
  | XFin p, XFin q => Some (p ?= q)%Q
  end.

(** A Python number: an [int] or a [float]. *)
Inductive pynum : Type :=
| PyInt (z : Z)
| PyFloat (f : spec_float).

Definition py_value (x : pynum) : xreal :=
  match x with
  | PyInt z => XFin (inject_Z z)
  | PyFloat f => float_value f
  end.

(** [x < y], [x >= y], [x <= y] and [x == y] on numbers. *)
Definition py_lt (x y : pynum) : bool :=
  match xcompare (py_value x) (py_value y) with
  | Some Lt => true
  | _ => false
  end.

Definition py_ge (x y : pynum) : bool :=
  match xcompare (py_value x) (py_value y) with
  | Some Gt | Some Eq => true
  | _ => false
  end.

Definition py_le (x y : pynum) : bool :=
  match xcompare (py_value x) (py_value y) with
  | Some Lt | Some Eq => true
  | _ => false
  end.

Definition py_eq (x y : pynum) : bool :=
  match xcompare (py_value x) (py_value y) with
  | Some Eq => true
  | _ => false
  end.

(** *** [float(n)] for an [int] *)

(** [n.bit_length()] for [n >= 0]. *)
Definition bit_length (n : Z) : Z :=
  if n =? 0 then 0 else Z.log2 n + 1.

(** [n / 2^s] rounded to the nearest integer, a tie going to the even one. *)
Definition round_half_even (n s : Z) : Z :=
  let q := n / 2 ^ s in
  let r := n mod 2 ^ s in
  let h := 2 ^ (s - 1) in
  if r <? h then q
  else if h <? r then q + 1
  else if Z.even q then q else q + 1.

(** The nearest integer to [n >= 0] that has at most 53 significant bits. *)
Definition rne53 (n : Z) : Z :=
  let s := bit_length n - 53 in
  if s <=? 0 then n else round_half_even n s * 2 ^ s.

(** The binary64 number of sign [sign] and magnitude [v], for [v] of at most
    53 significant bits: a mantissa of exactly 53 bits and its exponent. *)
Definition float_of_rounded (sign : bool) (v : Z) : spec_float :=
  match v with
  | Zpos _ =>
      let e := bit_length v - 53 in
      S754_finite sign (Z.to_pos (if e <? 0 then v * 2 ^ (- e) else v / 2 ^ e)) e
  | _ => S754_zero sign
  end.

Definition float_of_int (z : Z) : result spec_float :=
  let v := rne53 (Z.abs z) in
  if 2 ^ 1024 <=? v then Raise OverflowError
  else Ok (float_of_rounded (z <? 0) v).

(** [float(x)] for a number. *)
Definition py_float (x : pynum) : result spec_float :=
  match x with
  | PyInt z => float_of_int z
  | PyFloat f => Ok f
  end.

(** ** JSON values as [json.load] returns them *)

(** An object holds the members of the [dict] in insertion order, each key
    once. *)
#[local] Set Warnings "-register-all".
Inductive json : Type :=
| JNull
| JBool (b : bool)
| JInt (z : Z)
| JFloat (f : spec_float)
| JStr (s : string)
| JArr (items : list json)
| JObj (members : list (string * json)).
#[local] Set Warnings "register-all".

Fixpoint assoc (key : string) (members : list (string * json)) : option json :=
  match members with
  | [] => None
  | (k, v) :: rest => if String.eqb k key then Some v else assoc key rest
  end.

(** [v[key]] for a [str] key. *)
Definition getitem (v : json) (key : string) : result json :=
  match v with
  | JObj members => of_option (KeyError key) (assoc key members)
  | _ => Raise TypeError
  end.

(** The elements that [for x in v] goes through. *)
Definition py_iter (v : json) : result (list json) :=
  match v with
  | JArr items => Ok items
  | JObj members => Ok (map (fun kv => JStr (fst kv)) members)
  | JStr s => Ok (map (fun c => JStr (String c EmptyString)) (list_ascii_of_string s))
  | _ => Raise TypeError
  end.

(** ** Records of the common schema *)

Record image_record : Type := {
  image_id : string;
  image_path : string;
  segmented_path : option string;
  image_width : Z;
  image_height : Z
}.

Record detection : Type := {
  det_label : json;
  det_left : pynum;
  det_right : pynum;
  det_top : pynum;
  det_bottom : pynum
}.

Record annotated_image : Type := {
  image : image_record;
  detections : list detection
}.

(** The test of the list comprehension in [_get_image_detection]. *)
Definition keep_detection (det : detection) : bool :=
  py_lt (det_left det) (det_right det) && py_lt (det_top det) (det_bottom det).

Definition _image_dimensions (fs : FileSystem) (path : string) : result (Z * Z) :=
  image_open fs path.

Section Ingestor.

(** [json.loads]: the value, or the exception that the parser raises. *)
Variable json_load : string -> result json.
(** [float(s)] for a [str], [None] when it raises. *)
Variable float_of_str : string -> option spec_float.

(** [float(v)] for a value of a label file. *)
Definition float_of_json (v : json) : result spec_float :=
  match v with
  | JBool b => float_of_int (if b then 1 else 0)
  | JInt z => float_of_int z
  | JFloat f => Ok f
  | JStr s => of_option ValueError (float_of_str s)
  | JNull | JArr _ | JObj _ => Raise TypeError
  end.

(** The body of the loop of [_get_detections]. *)
Definition detection_of_box (width height : Z) (box : json) : result detection :=
  label <- getitem box "identity" ;;
  min_col <- (v <- getitem box "mincol" ;; float_of_json v) ;;
  max_col <- (v <- getitem box "maxcol" ;; float_of_json v) ;;
  min_row <- (v <- getitem box "minrow" ;; float_of_json v) ;;
  max_row <- (v <- getitem box "maxrow" ;; float_of_json v) ;;
  let min_col :=
    if py_lt (PyFloat min_col) (PyInt 0) then PyInt 0 else PyFloat min_col in
  let max_col :=
    if py_ge (PyFloat max_col) (PyInt width) then PyInt (width - 1)
    else PyFloat max_col in
  let min_row :=
    if py_lt (PyFloat min_row) (PyInt 0) then PyInt 0 else PyFloat min_row in
  let max_row :=
    if py_ge (PyFloat max_row) (PyInt height) then PyInt (height - 1)
    else PyFloat max_row in
  Ok {| det_label := label;
        det_left := min_col;
        det_right := max_col;
        det_top := min_row;
        det_bottom := max_row |}.

Definition _get_detections (fs : FileSystem) (detections_fpath : string)
           (width height : Z) : result (list detection) :=
  content <- open_read fs detections_fpath ;;
  f_json <- json_load content ;;
  children <- getitem f_json "children" ;;
  boxes <- py_iter children ;;
  for_append (detection_of_box width height) boxes [].

Definition _get_image_detection (fs : FileSystem)
           (root sub_dir id image_ext : string) : result annotated_image :=
  let path := get_image_path root sub_dir id image_ext in
  dims <- _image_dimensions fs path ;;
  let '(width, height) := dims in
  let detections_fpath := get_label_path root sub_dir id in
  dets <- _get_detections fs detections_fpath width height ;;
  let dets := filter keep_detection dets in
  Ok {| image := {| image_id := id;
                    image_path := path;
                    segmented_path := None;
                    image_width := width;
                    image_height := height |};
        detections := dets |}.

Definition ingest (fs : FileSystem) (path : string)
  : result (list annotated_image) :=
  sub_dir_with_image_ids <- _get_image_ids fs path ;;
  let image_ext := "png" in
  for_each
    (fun results '(sub_dir, image_ids) =>
       for_each
         (fun results id =>
            r <- _get_image_detection fs path sub_dir id image_ext ;;
            Ok (results ++ [r])%list)
         image_ids results)
    sub_dir_with_image_ids [].

End Ingestor.

(** * Vocabulary of the properties *)

(** A required subdirectory exists under the root. *)
Definition dir_present (fs : FileSystem) (path subdir : string) : Prop :=
  isdir fs (path ++ "/" ++ subdir) = true.

(** A string of whitespace only. *)
Fixpoint all_space (s : string) : bool :=
  match s with
  | EmptyString => true
  | String c s' => is_space c && all_space s'
  end.

(** Reading the index file of a split. *)
Definition read_index (fs : FileSystem) (root sub_dir : string) : result string :=
  open_read fs (index_path root sub_dir).

(** A number that is not a NaN. *)
Definition is_number (x : pynum) : Prop := py_value x <> XNaN.

(** The two clamps, as the ingestor applies them to a coordinate. *)
Definition clamp_low (v : spec_float) : pynum :=
  if py_lt (PyFloat v) (PyInt 0) then PyInt 0 else PyFloat v.

Definition clamp_high (bound : Z) (v : spec_float) : pynum :=
  if py_ge (PyFloat v) (PyInt bound) then PyInt (bound - 1) else PyFloat v.

(** A value of at most 53 significant bits. *)
Definition representable (v : Z) : Prop :=
  0 <= v /\ (53 < bit_length v -> v mod 2 ^ (bit_length v - 53) = 0).

(** The number that a value of a label file is, if it is one. *)
Definition json_number (v : json) : option pynum :=
  match v with
  | JBool b => Some (PyInt (if b then 1 else 0))
  | JInt z => Some (PyInt z)
  | JFloat f => Some (PyFloat f)
  | _ => None
  end.

(** The number under [key] in a box. *)
Definition box_number (box : json) (key : string) : option pynum :=
  match getitem box key with
  | Ok v => json_number v
  | Raise _ => None
  end.

(** The (split, identifier) pairs of a loaded index, in processing order. *)
Definition pairs_of (idx : list (string * list string)) : list (string * string) :=
  flat_map (fun entry => map (pair (fst entry)) (snd entry)) idx.

(** The body of the loops of [ingest], on a (split, identifier) pair. *)
Definition process_pair (json_load : string -> result json)
           (float_of_str : string -> option spec_float)
           (fs : FileSystem) (root : string) (p : string * string)
  : result annotated_image :=
  _get_image_detection json_load float_of_str fs root (fst p) (snd p) "png".


(** ** Example inputs *)

(** A box of a label file, with the fields in the order of the devkit. *)
Definition example_box (mincol minrow maxcol maxrow : json) : json :=
  JObj [("identity", JStr "pedestrian");
        ("mincol", mincol); ("minrow", minrow);
        ("maxcol", maxcol); ("maxrow", maxrow)].

(** A parser for which every label file holds the given boxes. *)
Definition example_json_load (boxes : list json) : string -> result json :=
  fun _ => Ok (JObj [("children", JArr boxes)]).

Definition no_float_of_str : string -> option spec_float := fun _ => None.

(** A data set under [data]: the three index files, one content for every
    label file and one size for every image; a file that is not there
    ([None]) raises the file-access exception of its path. *)
Definition example_fs (train valid test label : option string)
           (dims : option (Z * Z)) : FileSystem :=
  {| isdir := fun _ => true;
     open_read := fun p =>
       of_option (OSError p)
         (if String.eqb p "data/train.txt" then train
          else if String.eqb p "data/valid.txt" then valid
          else if String.eqb p "data/test.txt" then test
          else label);
     image_open := fun p => of_option (OSError p) dims |}.



(** The binary64 number [m * 2^e]. *)
Definition b64 (m e : Z) : spec_float := binary_normalize 53 1024 m e false.

(** ** Vocabulary of the further properties *)

(** A number that is neither a NaN nor an infinity. *)
Definition finite (x : pynum) : Prop := exists q, py_value x = XFin q.

(** The last character of a string. *)
Fixpoint last_char (s : string) : option ascii :=
  match s with
  | EmptyString => None
  | String c s' =>
      match last_char s' with
      | None => Some c
      | Some c' => Some c'
      end
  end.

(** A string that does not start with whitespace. *)
Definition starts_nonspace (s : string) : Prop :=
  forall c t, s = String c t -> is_space c = false.

(** A string without the separator. *)
Definition no_sep (sep : ascii) (piece : string) : Prop :=
  ~ In sep (list_ascii_of_string piece).

(** The number of occurrences of a character. *)
Fixpoint count_char (c : ascii) (s : string) : nat :=
  match s with
  | EmptyString => 0
  | String a s' => (if Ascii.eqb a c then 1 else 0) + count_char c s'
  end.

(** The exception of a label file whose top level cannot be used: the
    parser's own exception for a text it rejects, [TypeError] for a
    document that is not an object, [KeyError] for an object without
    [children], [TypeError] for [children] that cannot be iterated. *)
Definition label_error (parsed : result json) : option exn :=
  match parsed with
  | Raise e => Some e
  | Ok (JObj members) =>
      match assoc "children" members with
      | None => Some (KeyError "children")
      | Some (JArr _) | Some (JStr _) | Some (JObj _) => None
      | Some _ => Some TypeError
      end
  | Ok _ => Some TypeError
  end.

(** The keys that the loop of [_get_detections] reads, in its order. *)
Definition box_keys : list string :=
  ["identity"; "mincol"; "maxcol"; "minrow"; "maxrow"].

(** A box with an identity and four coordinates that [float] accepts. *)
Definition well_formed_box (float_of_str : string -> option spec_float)
           (box : json) : Prop :=
  (exists label, getitem box "identity" = Ok label)
  /\ Forall (fun key =>
               exists f, (v <- getitem box key ;; float_of_json float_of_str v)
                         = Ok f)
            ["mincol"; "maxcol"; "minrow"; "maxrow"].

(** A label file that parses to an object whose [children] is a list of
    well-formed boxes. *)
Definition well_formed_label (json_load : string -> result json)
           (float_of_str : string -> option spec_float)
           (fs : FileSystem) (fpath : string) : Prop :=
  exists content f_json boxes,
    open_read fs fpath = Ok content
    /\ json_load content = Ok f_json
    /\ getitem f_json "children" = Ok (JArr boxes)
    /\ Forall (well_formed_box float_of_str) boxes.




(** The least magnitude of an integer that [float] rejects. *)
Definition overflow_threshold : Z := 2 ^ 1024 - 2 ^ 970.

(** * Properties *)

(** ** Loops in the error monad *)

Lemma bind_Ok_inv {A B : Type} (m : result A) (k : A -> result B) (b : B) :
  bind m k = Ok b -> exists a, m = Ok a /\ k a = Ok b.
Proof.
  destruct m as [a|e]; simpl; intros H.
  - exists a; split; [reflexivity | exact H].
  - discriminate H.
Qed.

Lemma for_append_mapM {A B : Type} (f : A -> result B) (xs : list A) :
  forall acc, for_append f xs acc = ys <- mapM f xs ;; Ok (acc ++ ys)%list.
Proof.
  unfold for_append.
  induction xs as [|x xs IH]; intros acc; simpl.
  - now rewrite app_nil_r.
  - destruct (f x) as [y|e]; simpl; [|reflexivity].
    rewrite IH. destruct (mapM f xs) as [ys|e]; simpl; [|reflexivity].
    now rewrite <- app_assoc.
Qed.

Lemma mapM_app {A B : Type} (f : A -> result B) (xs1 xs2 : list A) :
  mapM f (xs1 ++ xs2)
  = ys1 <- mapM f xs1 ;; ys2 <- mapM f xs2 ;; Ok (ys1 ++ ys2)%list.
Proof.
  induction xs1 as [|x xs1 IH]; simpl.
  - destruct (mapM f xs2); reflexivity.
  - destruct (f x) as [y|e]; simpl; [|reflexivity].
    rewrite IH. destruct (mapM f xs1) as [ys1|e]; simpl; [|reflexivity].
    destruct (mapM f xs2); reflexivity.
Qed.

Lemma mapM_Ok_Forall2 {A B : Type} (f : A -> result B) (xs : list A) :
  forall ys, mapM f xs = Ok ys <-> Forall2 (fun x y => f x = Ok y) xs ys.
Proof.
  induction xs as [|x xs IH]; intros ys; simpl.
  - split; intros H.
    + injection H as <-. constructor.
    + inversion H. reflexivity.
  - split; intros H.
    + apply bind_Ok_inv in H as (y & Hy & H).
      apply bind_Ok_inv in H as (ys' & Hys & H).
      injection H as <-. constructor; [exact Hy | now apply IH].
    + inversion H as [|? y ? ys' Hy Hys]; subst.
      rewrite Hy. simpl. apply IH in Hys. rewrite Hys. reflexivity.
Qed.

Lemma mapM_Raise_inv {A B : Type} (f : A -> result B) (xs : list A) (e : exn) :
  mapM f xs = Raise e -> exists x, In x xs /\ f x = Raise e.
Proof.
  induction xs as [|a xs IH]; simpl; intros H; [discriminate H|].
  destruct (f a) as [y|e0] eqn:Ha; simpl in H.
  - destruct (mapM f xs) as [ys|e1]; simpl in H; [discriminate H|].
    injection H as ->. destruct (IH eq_refl) as (x & Hin & Hx).
    exists x. split; [now right | exact Hx].
  - injection H as ->. exists a. split; [now left | exact Ha].
Qed.

Lemma Forall2_In_r {A B : Type} (P : A -> B -> Prop) (xs : list A) (ys : list B) (y : B) :
  Forall2 P xs ys -> In y ys -> exists x, In x xs /\ P x y.
Proof.
  induction 1 as [|x y0 xs ys Hxy _ IH]; simpl; intros Hin; [contradiction|].
  destruct Hin as [->|Hin].
  - exists x. split; [now left | exact Hxy].
  - destruct (IH Hin) as (x' & Hx' & HP). exists x'. split; [now right | exact HP].
Qed.

Lemma Forall2_In_l {A B : Type} (P : A -> B -> Prop) (xs : list A) (ys : list B) (x : A) :
  Forall2 P xs ys -> In x xs -> exists y, In y ys /\ P x y.
Proof.
  induction 1 as [|x0 y xs ys Hxy _ IH]; simpl; intros Hin; [contradiction|].
  destruct Hin as [->|Hin].
  - exists y. split; [now left | exact Hxy].
  - destruct (IH Hin) as (y' & Hy' & HP). exists y'. split; [now right | exact HP].
Qed.

(** An exception in the body for one element makes the whole loop raise. *)
Lemma mapM_In_Raise {A B : Type} (f : A -> result B) (xs : list A) (x : A) (e : exn) :
  In x xs -> f x = Raise e -> exists e', mapM f xs = Raise e'.
Proof.
  induction xs as [|a xs IH]; simpl; intros Hin Hx; [contradiction|].
  destruct (f a) as [y|e0] eqn:Ha; simpl; [|now exists e0].
  destruct Hin as [->|Hin]; [congruence|].
  destruct (IH Hin Hx) as [e' He']. rewrite He'. now exists e'.
Qed.

(** The exception that leaves the loop is the one of the first element whose
    body raises. *)
Lemma mapM_first_Raise {A B : Type} (f : A -> result B)
      (before after : list A) (x : A) (e : exn) :
  (forall a, In a before -> exists b, f a = Ok b) ->
  f x = Raise e ->
  mapM f (before ++ x :: after) = Raise e.
Proof.
  induction before as [|a before IH]; simpl; intros Hall Hx.
  - now rewrite Hx.
  - destruct (Hall a (or_introl eq_refl)) as [b Hb]. rewrite Hb. simpl.
    rewrite IH; [reflexivity | | exact Hx].
    intros a' Ha'. apply Hall. now right.
Qed.

(** ** validate *)

Lemma validate_dirs_cases (fs : FileSystem) (path : string) (dirs : list string) :
  (Forall (dir_present fs path) dirs /\ validate_dirs fs path dirs = (true, None))
  \/ (exists before subdir after,
         dirs = (before ++ subdir :: after)%list
         /\ Forall (dir_present fs path) before
         /\ isdir fs (path ++ "/" ++ subdir) = false
         /\ validate_dirs fs path dirs
            = (false, Some ("Expected subdirectory " ++ subdir ++ " within " ++ path))).
Proof.
  induction dirs as [|d dirs IH]; cbn [validate_dirs].
  - left. split; [constructor | reflexivity].
  - destruct (isdir fs (path ++ "/" ++ d)) eqn:Hd; cbn [negb].
    + destruct IH as [[Hall Hv] | (before & subdir & after & -> & Hb & Hs & Hv)].
      * left. split; [constructor; assumption | exact Hv].
      * right. exists (d :: before), subdir, after.
        repeat split; try assumption. constructor; assumption.
    + right. exists [], d, dirs. repeat split; try assumption. constructor.
Qed.

(** C4. [validate] succeeds with no reason exactly when the six required
    subdirectories (the labelData and leftImg8bit trees of train, valid and
    test) all exist under the root; otherwise it fails with the message that
    names the first missing subdirectory of the fixed check order, and only
    that one. *)
Theorem validate_first_missing (fs : FileSystem) (path : string) :
  expected_dirs
  = flat_map (fun s => ["labelData/" ++ s ++ "/tsinghuaDaimlerDataset";
                        "leftImg8bit/" ++ s ++ "/tsinghuaDaimlerDataset"])
             sub_dirs
  /\ (validate fs path = (true, None)
      <-> Forall (dir_present fs path) expected_dirs)
  /\ ((Forall (dir_present fs path) expected_dirs
       /\ validate fs path = (true, None))
      \/ (exists before subdir after,
             expected_dirs = (before ++ subdir :: after)%list
             /\ Forall (dir_present fs path) before
             /\ isdir fs (path ++ "/" ++ subdir) = false
             /\ validate fs path
                = (false, Some ("Expected subdirectory " ++ subdir
                                  ++ " within " ++ path)))).
Proof.
  split; [reflexivity|].
  pose proof (validate_dirs_cases fs path expected_dirs) as Hc.
  fold (validate fs path) in Hc.
  split; [|exact Hc].
  destruct Hc as [[Hall Hv] | (before & subdir & after & Heq & Hb & Hs & Hv)].
  - split; intros _; assumption.
  - split; intros H.
    + rewrite Hv in H. discriminate H.
    + rewrite Heq in H. apply Forall_app in H as [_ H].
      inversion H as [|? ? Hd _]; subst. unfold dir_present in Hd. congruence.
Qed.

(** ** Strings *)

Lemma length_append (s t : string) :
  String.length (s ++ t) = (String.length s + String.length t)%nat.
Proof.
  induction s as [|c s IH]; simpl; [reflexivity | now rewrite IH].
Qed.

Lemma substring_prefix (s t : string) :
  substring 0 (String.length s) (s ++ t) = s.
Proof.
  induction s as [|c s IH]; simpl.
  - destruct t; reflexivity.
  - now rewrite IH.
Qed.

Lemma substring_tail (s : string) :
  forall k, exists tail,
    s = substring 0 k s ++ tail
    /\ String.length tail = (String.length s - k)%nat.
Proof.
  induction s as [|c s IH]; intros k.
  - exists "". destruct k; split; reflexivity.
  - destruct k as [|k].
    + exists (String c s). split; reflexivity.
    + destruct (IH k) as (tail & Heq & Hlen).
      exists tail. split; [|exact Hlen].
      simpl. now rewrite <- Heq.
Qed.

(** [s[:-12]] gives back the identifier of a line that ends in the suffix. *)
Lemma slice_suffix (id : string) :
  slice_to_neg (String.length suffix) (id ++ suffix) = id.
Proof.
  unfold slice_to_neg. rewrite length_append.
  replace (String.length id + String.length suffix - String.length suffix)%nat
    with (String.length id) by lia.
  apply substring_prefix.
Qed.

(** [s[:-n]] removes the last [n] characters whatever they are, and the
    whole line when it has fewer. *)
Lemma slice_to_neg_tail (n : nat) (s : string) :
  exists tail,
    s = slice_to_neg n s ++ tail
    /\ String.length tail = Nat.min n (String.length s).
Proof.
  unfold slice_to_neg.
  destruct (substring_tail s (String.length s - n)) as (tail & Heq & Hlen).
  exists tail. split; [exact Heq | lia].
Qed.

Lemma str_split_not_nil (sep : ascii) (s : string) : str_split sep s <> [].
Proof.
  destruct s as [|c s]; simpl; [discriminate|].
  destruct (Ascii.eqb c sep); [discriminate|].
  destruct (str_split sep s); discriminate.
Qed.

Lemma concat_cons (sep a : string) (l : list string) :
  l <> [] -> String.concat sep (a :: l) = a ++ sep ++ String.concat sep l.
Proof.
  destruct l; [contradiction | reflexivity].
Qed.

(** Joining the pieces with the separator gives the string back. *)
Lemma concat_str_split (sep : ascii) (s : string) :
  String.concat (String sep "") (str_split sep s) = s.
Proof.
  induction s as [|c s IH]; simpl; [reflexivity|].
  destruct (Ascii.eqb_spec c sep) as [->|Hne].
  - rewrite concat_cons by apply str_split_not_nil.
    rewrite IH. reflexivity.
  - pose proof (str_split_not_nil sep s) as Hnil.
    destruct (str_split sep s) as [|x xs]; [contradiction|].
    destruct xs as [|x' xs].
    + rewrite <- IH. reflexivity.
    + rewrite concat_cons by discriminate.
      rewrite concat_cons in IH by discriminate.
      rewrite <- IH. reflexivity.
Qed.

(** No piece contains the separator. *)
Lemma str_split_no_sep (sep : ascii) (s : string) :
  Forall (fun piece => ~ In sep (list_ascii_of_string piece)) (str_split sep s).
Proof.
  induction s as [|c s IH]; simpl.
  - constructor; [intros [] | constructor].
  - destruct (Ascii.eqb_spec c sep) as [->|Hne].
    + constructor; [intros [] | exact IH].
    + destruct (str_split sep s) as [|x xs].
      * constructor; [|constructor]. simpl. intros [H|[]]. congruence.
      * inversion IH as [|? ? Hx Hxs]; subst.
        constructor; [|exact Hxs]. simpl. intros [H|H]; [congruence | tauto].
Qed.

Lemma lstrip_spec (s : string) :
  exists l, s = l ++ lstrip s /\ all_space l = true
            /\ forall c t, lstrip s = String c t -> is_space c = false.
Proof.
  induction s as [|c s (l & Heq & Hl & Hfirst)]; simpl.
  - exists "". repeat split. intros c t H. discriminate H.
  - destruct (is_space c) eqn:Hc.
    + exists (String c l). simpl. rewrite Hc, Hl, <- Heq. repeat split.
      exact Hfirst.
    + exists "". repeat split. intros c' t H. injection H as <- _. exact Hc.
Qed.

Lemma rstrip_spec (s : string) :
  exists r, s = rstrip s ++ r /\ all_space r = true
            /\ forall t c, rstrip s = t ++ String c "" -> is_space c = false.
Proof.
  induction s as [|c s (r & Heq & Hr & Hlast)]; simpl.
  - exists "". repeat split. intros [|? ?] c H; discriminate H.
  - destruct (rstrip s) as [|c' s'] eqn:Hrs.
    + simpl in Heq. subst r.
      destruct (is_space c) eqn:Hc.
      * exists (String c s). simpl. rewrite Hc, Hr. repeat split.
        intros [|? ?] c0 H; discriminate H.
      * exists s. repeat split; [exact Hr|].
        intros [|a [|? ?]] c0 H; simpl in H; try discriminate H.
        injection H as <-. exact Hc.
    + exists r. simpl. rewrite Heq at 1. repeat split; [exact Hr|].
      intros [|a t] c0 H; simpl in H.
      * discriminate H.
      * injection H as _ H. exact (Hlast t c0 H).
Qed.

Lemma rstrip_first (s : string) (c : ascii) (t : string) :
  s = String c t -> is_space c = false -> exists t', rstrip s = String c t'.
Proof.
  intros -> Hc. simpl. destruct (rstrip t).
  - rewrite Hc. now exists "".
  - now eexists.
Qed.

(** [strip] removes a run of whitespace at each end and nothing else. *)
Lemma strip_spec (s : string) :
  exists l r,
    s = l ++ strip s ++ r /\ all_space l = true /\ all_space r = true
    /\ (forall c t, strip s = String c t -> is_space c = false)
    /\ (forall t c, strip s = t ++ String c "" -> is_space c = false).
Proof.
  unfold strip.
  destruct (lstrip_spec s) as (l & Hl & Hls & Hfirst).
  destruct (rstrip_spec (lstrip s)) as (r & Hr & Hrs & Hlast).
  exists l, r. repeat split; try assumption.
  - rewrite <- Hr. exact Hl.
  - intros c t H. destruct (lstrip s) as [|c0 t0] eqn:E.
    + simpl in H. discriminate H.
    + destruct (rstrip_first (String c0 t0) c0 t0 eq_refl (Hfirst _ _ eq_refl))
        as [t' Ht'].
      rewrite Ht' in H. injection H as <- _. exact (Hfirst _ _ eq_refl).
Qed.

Lemma lstrip_all_space (s : string) : all_space s = true -> lstrip s = "".
Proof.
  induction s as [|c s IH]; simpl; [reflexivity|].
  intros H. apply andb_true_iff in H as [Hc Hs].
  rewrite Hc. exact (IH Hs).
Qed.

Lemma strip_all_space (s : string) : all_space s = true -> strip s = "".
Proof.
  intros H. unfold strip. now rewrite (lstrip_all_space s H).
Qed.

(** ** Index files *)

(** The loop over the three splits, unrolled. *)
Lemma _get_image_ids_unrolled (fs : FileSystem) (root : string) :
  _get_image_ids fs root
  = (train <- read_index fs root "train" ;;
     valid <- read_index fs root "valid" ;;
     test <- read_index fs root "test" ;;
     Ok [("train", image_ids_of train);
         ("valid", image_ids_of valid);
         ("test", image_ids_of test)]).
Proof.
  unfold _get_image_ids, for_append, read_index, sub_dirs, for_each.
  destruct (open_read fs (index_path root "train")); [|reflexivity].
  destruct (open_read fs (index_path root "valid")); [|reflexivity].
  destruct (open_read fs (index_path root "test")); reflexivity.
Qed.


Lemma _get_image_ids_Ok (fs : FileSystem) (root : string)
      (idx : list (string * list string)) :
  _get_image_ids fs root = Ok idx ->
  exists train valid test,
    open_read fs (index_path root "train") = Ok train
    /\ open_read fs (index_path root "valid") = Ok valid
    /\ open_read fs (index_path root "test") = Ok test
    /\ idx = [("train", image_ids_of train);
              ("valid", image_ids_of valid);
              ("test", image_ids_of test)].
Proof.
  rewrite _get_image_ids_unrolled. unfold read_index.
  destruct (open_read fs (index_path root "train")) as [a|]; [|discriminate].
  destruct (open_read fs (index_path root "valid")) as [b|]; [|discriminate].
  destruct (open_read fs (index_path root "test")) as [c|]; [|discriminate].
  simpl. intros H. injection H as <-. now exists a, b, c.
Qed.

(** C5. [_get_image_ids] goes through train, valid and test in this order
    and reads [{root}/{split}.txt]. It removes the whitespace at both ends
    of the content (all of it: what is left neither starts nor ends with
    whitespace), splits the rest on newline, and removes the last twelve
    characters (the length of [_leftImg8bit]) of every line: a line that
    ends in the suffix gives its bare identifier, so [foo_leftImg8bit],
    [bar_leftImg8bit] give [foo], [bar], with or without whitespace around
    the content; any other line loses its last twelve characters all the
    same, whatever they are, whitespace inside the content included. *)
Theorem load_split_index (fs : FileSystem) (root : string) :
  _get_image_ids fs root
  = (train <- open_read fs (root ++ "/train.txt") ;;
     valid <- open_read fs (root ++ "/valid.txt") ;;
     test <- open_read fs (root ++ "/test.txt") ;;
     Ok [("train", image_ids_of train);
         ("valid", image_ids_of valid);
         ("test", image_ids_of test)])
  /\ (forall content, exists l r,
         content = l ++ strip content ++ r
         /\ all_space l = true /\ all_space r = true
         /\ (forall c t, strip content = String c t -> is_space c = false)
         /\ (forall t c, strip content = t ++ String c "" -> is_space c = false))
  /\ (forall content, exists lines,
         lines = str_split LF (strip content)
         /\ lines <> []
         /\ String.concat (String LF "") lines = strip content
         /\ Forall (fun line => ~ In LF (list_ascii_of_string line)) lines
         /\ image_ids_of content = map (slice_to_neg 12) lines)
  /\ (forall id, slice_to_neg 12 (id ++ "_leftImg8bit") = id)
  /\ (forall line, exists tail,
         line = slice_to_neg 12 line ++ tail
         /\ String.length tail = Nat.min 12 (String.length line))
  /\ image_ids_of ("foo_leftImg8bit" ++ String LF "bar_leftImg8bit")
     = ["foo"; "bar"]
  /\ image_ids_of (String LF "  " ++ "foo_leftImg8bit"
                     ++ String LF "bar_leftImg8bit" ++ " " ++ String LF "")
     = ["foo"; "bar"]
  /\ image_ids_of ("a_leftImg8bit" ++ String LF "") = ["a"]
  /\ image_ids_of ("foo_leftImg8bit " ++ String LF "bar_leftImg8bit")
     = ["foo_"; "bar"]
  /\ image_ids_of ("frame_0001.png" ++ String LF "bar_leftImg8bit")
     = ["fr"; "bar"].
Proof.
  split; [apply _get_image_ids_unrolled|].
  split.
  { intros content.
    destruct (strip_spec content) as (l & r & Heq & Hl & Hr & Hfirst & Hlast).
    exists l, r. repeat split; assumption. }
  split.
  { intros content. exists (str_split LF (strip content)).
    split; [reflexivity|]. split; [apply str_split_not_nil|].
    split; [apply concat_str_split|].
    split; [apply str_split_no_sep | reflexivity]. }
  split; [exact slice_suffix|].
  split; [exact (slice_to_neg_tail 12)|].
  repeat split; reflexivity.
Qed.

(** ** Order on Python numbers *)

Lemma xcompare_antisym (a b : xreal) :
  xcompare b a = option_map CompOpp (xcompare a b).
Proof.
  destruct a, b; simpl; try reflexivity.
  now rewrite Qcompare_antisym.
Qed.

Lemma xcompare_number (a b : xreal) :
  a <> XNaN -> b <> XNaN -> exists c, xcompare a b = Some c.
Proof.
  destruct a, b; simpl; intros Ha Hb; try contradiction; eexists; reflexivity.
Qed.

Lemma py_lt_is_number (x y : pynum) :
  py_lt x y = true -> is_number x /\ is_number y.
Proof.
  unfold py_lt, is_number.
  destruct (py_value x), (py_value y); simpl; intros H;
    try discriminate H; split; discriminate.
Qed.

(** Among numbers the order is total: [not (x < y)] gives [y <= x], and
    [not (x >= y)] gives [x < y]. *)
Lemma py_lt_false_le (x y : pynum) :
  is_number x -> is_number y -> py_lt x y = false -> py_le y x = true.
Proof.
  unfold py_lt, py_le. intros Hx Hy.
  destruct (xcompare_number _ _ Hx Hy) as [c Hc].
  rewrite (xcompare_antisym (py_value x) (py_value y)), Hc.
  destruct c; simpl; intros H; try reflexivity. discriminate H.
Qed.

Lemma py_ge_false_lt (x y : pynum) :
  is_number x -> is_number y -> py_ge x y = false -> py_lt x y = true.
Proof.
  unfold py_lt, py_ge. intros Hx Hy.
  destruct (xcompare_number _ _ Hx Hy) as [c Hc]. rewrite Hc.
  destruct c; intros H; try reflexivity; discriminate H.
Qed.

Lemma py_lt_int (a b : Z) : py_lt (PyInt a) (PyInt b) = (a <? b).
Proof.
  unfold py_lt. cbn [py_value xcompare].
  unfold Qcompare, inject_Z. cbn [Qnum Qden]. rewrite !Z.mul_1_r.
  unfold Z.ltb. destruct (a ?= b); reflexivity.
Qed.

(** A number below the integer [w] that is itself an integer is at most
    [w - 1]. *)
Lemma py_lt_int_le_pred (x : pynum) (k w : Z) :
  py_eq x (PyInt k) = true -> py_lt x (PyInt w) = true ->
  py_le x (PyInt (w - 1)) = true.
Proof.
  unfold py_eq, py_lt, py_le. simpl.
  destruct (py_value x) as [| |q|]; simpl; try discriminate; try reflexivity.
  destruct (q ?= inject_Z k)%Q eqn:Hk; try discriminate. intros _.
  apply Qeq_alt in Hk.
  destruct (q ?= inject_Z w)%Q eqn:Hw; try discriminate. intros _.
  apply Qlt_alt in Hw. rewrite Hk in Hw.
  rewrite <- Zlt_Qlt in Hw.
  assert (Hle : (q <= inject_Z (w - 1))%Q).
  { rewrite Hk. rewrite <- Zle_Qle. lia. }
  apply (proj1 (Qle_alt _ _)) in Hle.
  destruct (q ?= inject_Z (w - 1))%Q eqn:E; try reflexivity. congruence.
Qed.

(** A low-clamped coordinate that is a number is at least 0. *)
Lemma clamp_low_nonneg (v : spec_float) :
  is_number (clamp_low v) -> py_le (PyInt 0) (clamp_low v) = true.
Proof.
  unfold clamp_low. destruct (py_lt (PyFloat v) (PyInt 0)) eqn:H; intros Hn.
  - reflexivity.
  - apply py_lt_false_le; [exact Hn | discriminate | exact H].
Qed.

(** A high-clamped coordinate that is a number is below the bound. *)
Lemma clamp_high_below (bound : Z) (v : spec_float) :
  is_number (clamp_high bound v) ->
  py_lt (clamp_high bound v) (PyInt bound) = true.
Proof.
  unfold clamp_high. destruct (py_ge (PyFloat v) (PyInt bound)) eqn:H; intros Hn.
  - rewrite py_lt_int. apply Z.ltb_lt. lia.
  - apply py_ge_false_lt; [exact Hn | discriminate | exact H].
Qed.

(** ** [float] of an [int] *)

Lemma bit_length_pos (n : Z) : 0 < n -> 2 ^ (bit_length n - 1) <= n < 2 ^ bit_length n.
Proof.
  intros Hn. unfold bit_length.
  destruct (Z.eqb_spec n 0) as [->|_]; [lia|].
  replace (Z.log2 n + 1 - 1) with (Z.log2 n) by lia.
  replace (Z.log2 n + 1) with (Z.succ (Z.log2 n)) by lia.
  apply Z.log2_spec. exact Hn.
Qed.

Lemma bit_length_nonneg (n : Z) : 0 <= bit_length n.
Proof.
  unfold bit_length. destruct (n =? 0); [lia|].
  pose proof (Z.log2_nonneg n). lia.
Qed.

Lemma bit_length_unique (n d : Z) :
  0 < d -> 2 ^ (d - 1) <= n < 2 ^ d -> bit_length n = d.
Proof.
  intros Hd Hn. unfold bit_length.
  assert (0 < 2 ^ (d - 1)) by (apply Z.pow_pos_nonneg; lia).
  destruct (Z.eqb_spec n 0) as [->|_]; [lia|].
  assert (Z.log2 n = d - 1); [|lia].
  apply Z.log2_unique; [lia|].
  replace (Z.succ (d - 1)) with d by lia. exact Hn.
Qed.

Lemma bit_length_mono (a b : Z) : 0 <= a <= b -> bit_length a <= bit_length b.
Proof.
  intros H. unfold bit_length.
  destruct (Z.eqb_spec a 0) as [->|Ha]; destruct (Z.eqb_spec b 0) as [->|Hb]; try lia.
  - pose proof (Z.log2_nonneg b). lia.
  - pose proof (Z.log2_le_mono a b). lia.
Qed.

(** [round_half_even] gives the quotient or its successor. *)
Lemma round_half_even_cases (n s : Z) :
  round_half_even n s = n / 2 ^ s \/ round_half_even n s = n / 2 ^ s + 1.
Proof.
  unfold round_half_even.
  destruct (_ <? _); [now left|].
  destruct (_ <? _); [now right|].
  destruct (Z.even _); [now left | now right].
Qed.

Lemma round_half_even_mono (a b s : Z) :
  0 < s -> a <= b -> round_half_even a s <= round_half_even b s.
Proof.
  intros Hs Hab.
  assert (HP : 0 < 2 ^ s) by (apply Z.pow_pos_nonneg; lia).
  pose proof (Z.div_le_mono a b (2 ^ s) HP Hab) as Hq.
  destruct (Z.eq_dec (a / 2 ^ s) (b / 2 ^ s)) as [Heq|Hne].
  - pose proof (Z.div_mod a (2 ^ s) ltac:(lia)) as Ha.
    pose proof (Z.div_mod b (2 ^ s) ltac:(lia)) as Hb.
    assert (Hr : a mod 2 ^ s <= b mod 2 ^ s) by (rewrite Heq in Ha; lia).
    unfold round_half_even. rewrite Heq.
    destruct (Z.ltb_spec (a mod 2 ^ s) (2 ^ (s - 1)));
      destruct (Z.ltb_spec (b mod 2 ^ s) (2 ^ (s - 1)));
      destruct (Z.ltb_spec (2 ^ (s - 1)) (a mod 2 ^ s));
      destruct (Z.ltb_spec (2 ^ (s - 1)) (b mod 2 ^ s));
      destruct (Z.even (b / 2 ^ s)); lia.
  - destruct (round_half_even_cases a s) as [-> | ->];
      destruct (round_half_even_cases b s) as [-> | ->]; lia.
Qed.

Lemma round_half_even_exact (m s : Z) :
  0 < s -> round_half_even (m * 2 ^ s) s = m.
Proof.
  intros Hs.
  assert (HP : 0 < 2 ^ s) by (apply Z.pow_pos_nonneg; lia).
  assert (Hh : 0 < 2 ^ (s - 1)) by (apply Z.pow_pos_nonneg; lia).
  unfold round_half_even.
  rewrite Z.div_mul by lia. rewrite Z.mod_mul by lia.
  destruct (Z.ltb_spec 0 (2 ^ (s - 1))); [reflexivity | lia].
Qed.

Lemma rne53_small (n : Z) : bit_length n <= 53 -> rne53 n = n.
Proof.
  intros H. unfold rne53.
  destruct (Z.leb_spec (bit_length n - 53) 0); [reflexivity | lia].
Qed.

Lemma rne53_large (n : Z) :
  53 < bit_length n ->
  rne53 n = round_half_even n (bit_length n - 53) * 2 ^ (bit_length n - 53)
  /\ 2 ^ 52 <= round_half_even n (bit_length n - 53) <= 2 ^ 53.
Proof.
  intros H. split.
  - unfold rne53. destruct (Z.leb_spec (bit_length n - 53) 0); [lia | reflexivity].
  - assert (Hn : 0 < n).
    { unfold bit_length in H. destruct (Z.eqb_spec n 0); [lia|].
      destruct n as [|p|p]; [lia | lia | simpl in H; lia]. }
    pose proof (bit_length_pos n Hn) as [Hlo Hhi].
    set (s := bit_length n - 53) in *.
    assert (HP : 0 < 2 ^ s) by (apply Z.pow_pos_nonneg; lia).
    replace (bit_length n - 1) with (52 + s) in Hlo by lia.
    replace (bit_length n) with (53 + s) in Hhi by lia.
    rewrite Z.pow_add_r in Hlo, Hhi by lia.
    assert (2 ^ 52 <= n / 2 ^ s) by (apply Z.div_le_lower_bound; lia).
    assert (n / 2 ^ s < 2 ^ 53) by (apply Z.div_lt_upper_bound; lia).
    destruct (round_half_even_cases n s) as [-> | ->]; lia.
Qed.

Lemma rne53_bounds (n : Z) :
  0 < n -> 2 ^ (bit_length n - 1) <= rne53 n <= 2 ^ bit_length n.
Proof.
  intros Hn. pose proof (bit_length_pos n Hn) as [Hlo Hhi].
  destruct (Z.le_gt_cases (bit_length n) 53) as [H|H].
  - rewrite (rne53_small n H). lia.
  - destruct (rne53_large n H) as [-> [Hl Hu]].
    set (s := bit_length n - 53) in *.
    assert (HP : 0 < 2 ^ s) by (apply Z.pow_pos_nonneg; lia).
    replace (bit_length n - 1) with (52 + s) by lia.
    replace (bit_length n) with (53 + s) by lia.
    rewrite !Z.pow_add_r by lia. nia.
Qed.

Lemma rne53_0 : rne53 0 = 0.
Proof. reflexivity. Qed.

Lemma rne53_pos (n : Z) : 0 < n -> 0 < rne53 n.
Proof.
  intros Hn. pose proof (rne53_bounds n Hn) as [Hlo _].
  pose proof (bit_length_pos n Hn) as [_ Hhi].
  assert (0 < 2 ^ (bit_length n - 1)); [|lia].
  apply Z.pow_pos_nonneg; [lia|].
  pose proof (bit_length_nonneg n).
  destruct (Z.eq_dec (bit_length n) 0) as [E|E]; [rewrite E in Hhi; simpl in Hhi; lia | lia].
Qed.

(** Rounding to 53 significant bits is monotone. *)
Lemma rne53_mono (a b : Z) : 0 <= a <= b -> rne53 a <= rne53 b.
Proof.
  intros [Ha Hab].
  destruct (Z.eq_dec a 0) as [->|Ha0].
  { rewrite rne53_0. destruct (Z.eq_dec b 0) as [->|Hb0]; [reflexivity|].
    pose proof (rne53_pos b). lia. }
  assert (Hpa : 0 < a) by lia. assert (Hpb : 0 < b) by lia.
  pose proof (bit_length_mono a b (conj Ha Hab)) as Hd.
  destruct (Z.eq_dec (bit_length a) (bit_length b)) as [Heq|Hne].
  - destruct (Z.le_gt_cases (bit_length b) 53) as [H|H].
    + rewrite !rne53_small by lia. exact Hab.
    + destruct (rne53_large a ltac:(lia)) as [-> _].
      destruct (rne53_large b H) as [-> _].
      rewrite Heq.
      apply Z.mul_le_mono_nonneg_r; [apply Z.pow_nonneg; lia|].
      apply round_half_even_mono; lia.
  - pose proof (rne53_bounds a Hpa) as [_ Hua].
    pose proof (rne53_bounds b Hpb) as [Hlb _].
    assert (2 ^ bit_length a <= 2 ^ (bit_length b - 1)); [|lia].
    apply Z.pow_le_mono_r; [lia|]. lia.
Qed.

Lemma rne53_of_representable (v : Z) : representable v -> rne53 v = v.
Proof.
  intros [Hv Hmod].
  destruct (Z.le_gt_cases (bit_length v) 53) as [H|H].
  - now apply rne53_small.
  - destruct (rne53_large v H) as [-> _]. specialize (Hmod H).
    set (s := bit_length v - 53) in *.
    assert (HP : 0 < 2 ^ s) by (apply Z.pow_pos_nonneg; lia).
    pose proof (Z.div_mod v (2 ^ s) ltac:(lia)) as Hdm.
    rewrite Hmod, Z.add_0_r in Hdm.
    transitivity (round_half_even (v / 2 ^ s * 2 ^ s) s * 2 ^ s).
    + do 2 f_equal. lia.
    + rewrite round_half_even_exact by lia. lia.
Qed.

Lemma rne53_representable (n : Z) : 0 <= n -> representable (rne53 n).
Proof.
  intros Hn.
  destruct (Z.le_gt_cases (bit_length n) 53) as [H|H].
  - rewrite (rne53_small n H). split; [exact Hn | lia].
  - destruct (rne53_large n H) as [-> [Hl Hu]].
    set (s := bit_length n - 53) in *.
    set (m := round_half_even n s) in *.
    assert (HP : 0 < 2 ^ s) by (apply Z.pow_pos_nonneg; lia).
    split; [nia|].
    destruct (Z.eq_dec m (2 ^ 53)) as [Hm|Hm].
    + assert (Hbl : bit_length (m * 2 ^ s) = 54 + s).
      { apply bit_length_unique; [lia|].
        replace (54 + s - 1) with (53 + s) by lia.
        rewrite !Z.pow_add_r by lia. rewrite Hm. lia. }
      rewrite Hbl. intros _.
      replace (54 + s - 53) with (1 + s) by lia.
      rewrite Z.pow_add_r by lia. rewrite Hm.
      replace (2 ^ 53 * 2 ^ s) with (2 ^ 52 * (2 ^ 1 * 2 ^ s)) by lia.
      apply Z.mod_mul. lia.
    + assert (Hbl : bit_length (m * 2 ^ s) = 53 + s).
      { apply bit_length_unique; [lia|].
        replace (53 + s - 1) with (52 + s) by lia.
        rewrite !Z.pow_add_r by lia. nia. }
      rewrite Hbl. intros _.
      replace (53 + s - 53) with s by lia.
      apply Z.mod_mul. lia.
Qed.

Lemma rne53_idem (n : Z) : 0 <= n -> rne53 (rne53 n) = rne53 n.
Proof.
  intros Hn. apply rne53_of_representable. now apply rne53_representable.
Qed.

(** An integer between [n] and its rounding rounds to the same value. *)
Lemma rne53_between (n y : Z) :
  0 <= n -> (n <= y <= rne53 n \/ rne53 n <= y <= n) -> rne53 y = rne53 n.
Proof.
  intros Hn [[H1 H2] | [H1 H2]].
  - pose proof (rne53_mono n y ltac:(lia)).
    pose proof (rne53_mono y (rne53 n) ltac:(lia)) as H3.
    rewrite rne53_idem in H3 by lia. lia.
  - destruct (Z.eq_dec n 0) as [->|Hn0].
    { rewrite rne53_0 in *. assert (y = 0) by lia. now subst. }
    pose proof (rne53_pos n ltac:(lia)).
    pose proof (rne53_mono y n ltac:(lia)).
    pose proof (rne53_mono (rne53 n) y ltac:(lia)) as H3.
    rewrite rne53_idem in H3 by lia. lia.
Qed.

(** [float_of_int] gives the number that the rounding of the standard
    library's [binary_normalize] gives, on small, large, tied and
    negative integers; beyond the largest float the library has an
    infinity where Python raises. *)
Example float_of_int_binary_normalize :
  Forall (fun z => float_of_int z = Ok (binary_normalize 53 1024 z 0 false))
         [0; 1; -1; 39; 40; -5; 2 ^ 53 - 1; 2 ^ 53; 2 ^ 53 + 1; 2 ^ 53 + 3;
          2 ^ 54 + 2; 2 ^ 54 + 6; 2 ^ 60 + 128; 2 ^ 60 + 200; - (2 ^ 60 + 384);
          123456789123456789123456789; 2 ^ 1023; 2 ^ 1024 - 2 ^ 970 - 1]
  /\ float_of_int (2 ^ 1024 - 2 ^ 970) = Raise OverflowError
  /\ binary_normalize 53 1024 (2 ^ 1024 - 2 ^ 970) 0 false = S754_infinity false.
Proof.
  split; [|split; vm_compute; reflexivity].
  repeat (constructor; [vm_compute; reflexivity|]). constructor.
Qed.

Lemma Qcompare_inject_Z (a b : Z) : (inject_Z a ?= inject_Z b)%Q = (a ?= b).
Proof.
  unfold Qcompare, inject_Z. cbn [Qnum Qden]. now rewrite !Z.mul_1_r.
Qed.

Lemma xcompare_int (q : Q) (a b : Z) :
  (q == inject_Z a)%Q ->
  xcompare (XFin q) (XFin (inject_Z b)) = Some (a ?= b).
Proof.
  intros H. cbn [xcompare]. f_equal.
  rewrite (Qcompare_comp _ _ H _ _ (Qeq_refl _)). apply Qcompare_inject_Z.
Qed.

(** The value of the binary64 number built from a representable magnitude. *)
Lemma float_of_rounded_value (s : bool) (v : Z) :
  representable v ->
  exists q, float_value (float_of_rounded s v) = XFin q
            /\ (q == inject_Z (cond_Zopp s v))%Q.
Proof.
  intros [Hv Hmod]. destruct v as [|p|p]; [| |lia].
  - exists 0%Q. split; [reflexivity|]. destruct s; reflexivity.
  - unfold float_of_rounded. cbv zeta.
    set (v := Z.pos p) in *.
    set (e := bit_length v - 53) in *.
    cbn [float_value]. eexists. split; [reflexivity|].
    destruct (Z.ltb_spec e 0) as [He|He].
    + assert (Hm : 0 < v * 2 ^ (- e)).
      { apply Z.mul_pos_pos; [reflexivity | apply Z.pow_pos_nonneg; lia]. }
      unfold F2Q. rewrite Z2Pos.id by exact Hm.
      destruct e as [|pe|pe]; try lia.
      unfold Qeq. cbn [Qnum Qden inject_Z].
      rewrite Pos2Z.inj_pow. change (- Z.neg pe) with (Z.pos pe).
      destruct s; cbn [cond_Zopp]; lia.
    + assert (HP : 0 < 2 ^ e) by (apply Z.pow_pos_nonneg; lia).
      assert (Hex : v / 2 ^ e * 2 ^ e = v).
      { destruct (Z.eq_dec e 0) as [E|E].
        - rewrite E. simpl. rewrite Z.div_1_r. lia.
        - pose proof (Z.div_mod v (2 ^ e) ltac:(lia)) as Hdm.
          rewrite (Hmod ltac:(lia)) in Hdm. lia. }
      assert (Hm : 0 < v / 2 ^ e) by (subst v; nia).
      unfold F2Q. rewrite Z2Pos.id by exact Hm.
      assert (Hval : cond_Zopp s (v / 2 ^ e) * 2 ^ e = cond_Zopp s v).
      { destruct s; cbn [cond_Zopp]; lia. }
      destruct e as [|pe|pe]; try lia; rewrite Hval; reflexivity.
Qed.

Lemma float_of_int_Ok (z : Z) (f : spec_float) :
  float_of_int z = Ok f ->
  f = float_of_rounded (z <? 0) (rne53 (Z.abs z)).
Proof.
  unfold float_of_int. destruct (_ <=? _); [discriminate|].
  intros H. now injection H.
Qed.

Lemma float_of_int_value (z : Z) (f : spec_float) :
  float_of_int z = Ok f ->
  exists q, float_value f = XFin q
            /\ (q == inject_Z (cond_Zopp (z <? 0) (rne53 (Z.abs z))))%Q.
Proof.
  intros H. apply float_of_int_Ok in H as ->.
  apply float_of_rounded_value. apply rne53_representable. lia.
Qed.

Lemma float_of_int_same (z y : Z) :
  (z <? 0) = (y <? 0) -> rne53 (Z.abs z) = rne53 (Z.abs y) ->
  float_of_int y = float_of_int z.
Proof.
  intros Hs Hv. unfold float_of_int. now rewrite Hs, Hv.
Qed.

(** A coordinate that is at least 0 is not raised by the low clamp. *)
Lemma clamp_low_unclamped (x : pynum) (f : spec_float) :
  py_float x = Ok f -> py_ge x (PyInt 0) = true -> clamp_low f = PyFloat f.
Proof.
  intros Hf Hge. unfold clamp_low.
  destruct (py_lt (PyFloat f) (PyInt 0)) eqn:Hlt; [|reflexivity].
  exfalso. destruct x as [z|g]; cbn [py_float] in Hf.
  - destruct (float_of_int_value z f Hf) as (q & Hq & Hv).
    unfold py_ge in Hge. cbn [py_value] in Hge.
    cbn [xcompare] in Hge. rewrite Qcompare_inject_Z in Hge.
    unfold py_lt in Hlt. cbn [py_value] in Hlt.
    rewrite Hq, (xcompare_int q _ 0 Hv) in Hlt.
    assert (Hz : 0 <= z).
    { destruct (z ?= 0) eqn:E; try discriminate Hge.
      - apply Z.compare_eq in E. lia.
      - apply (proj1 (Z.compare_gt_iff _ _)) in E. lia. }
    replace (z <? 0) with false in Hlt by (symmetry; apply Z.ltb_ge; lia).
    cbn [cond_Zopp] in Hlt.
    destruct (rne53 (Z.abs z) ?= 0) eqn:E; try discriminate Hlt.
    apply (proj1 (Z.compare_lt_iff _ _)) in E.
    destruct (Z.eq_dec z 0) as [->|Hz0]; [discriminate E|].
    pose proof (rne53_pos (Z.abs z)). lia.
  - injection Hf as ->. unfold py_ge in Hge. unfold py_lt in Hlt.
    destruct (xcompare (py_value (PyFloat f)) (py_value (PyInt 0))) as [[| |]|];
      discriminate.
Qed.

Lemma py_lt_ge_false (x y : pynum) : py_lt x y = true -> py_ge x y = false.
Proof.
  unfold py_lt, py_ge.
  destruct (xcompare (py_value x) (py_value y)) as [[| |]|]; try discriminate.
  reflexivity.
Qed.

(** A coordinate below the bound keeps its float through the high clamp:
    it is not clamped, unless it is an [int] that [float] rounds up to the
    bound or beyond, and then [bound - 1] has the same float. *)
Lemma clamp_high_unclamped (x : pynum) (f : spec_float) (bound : Z) :
  py_float x = Ok f -> py_lt x (PyInt bound) = true ->
  py_float (clamp_high bound f) = Ok f.
Proof.
  intros Hf Hlt. unfold clamp_high.
  destruct (py_ge (PyFloat f) (PyInt bound)) eqn:Hge; [|reflexivity].
  destruct x as [z|g]; cbn [py_float] in Hf.
  - cbn [py_float]. rewrite <- Hf.
    rewrite py_lt_int in Hlt. apply Z.ltb_lt in Hlt.
    destruct (float_of_int_value z f Hf) as (q & Hq & Hv).
    unfold py_ge in Hge. cbn [py_value] in Hge.
    rewrite Hq, (xcompare_int q _ bound Hv) in Hge.
    assert (Hle : bound <= cond_Zopp (z <? 0) (rne53 (Z.abs z))).
    { destruct (_ ?= bound) eqn:E; try discriminate Hge.
      - apply Z.compare_eq in E. lia.
      - apply (proj1 (Z.compare_gt_iff _ _)) in E. lia. }
    clear Hge Hq Hv Hf.
    destruct (Z.ltb_spec z 0) as [Hz|Hz]; cbn [cond_Zopp] in Hle.
    + pose proof (rne53_pos (Z.abs z) ltac:(lia)) as Hpos.
      apply float_of_int_same.
      * destruct (Z.ltb_spec z 0), (Z.ltb_spec (bound - 1) 0);
          try reflexivity; lia.
      * symmetry. apply rne53_between; lia.
    + apply float_of_int_same.
      * destruct (Z.ltb_spec z 0), (Z.ltb_spec (bound - 1) 0);
          try reflexivity; lia.
      * symmetry. apply rne53_between; lia.
  - injection Hf as ->. rewrite (py_lt_ge_false _ _ Hlt) in Hge. discriminate Hge.
Qed.

Lemma clamp_high_below_bound (f : spec_float) (bound : Z) :
  py_lt (PyFloat f) (PyInt bound) = true -> clamp_high bound f = PyFloat f.
Proof.
  intros H. unfold clamp_high. now rewrite (py_lt_ge_false _ _ H).
Qed.

(** ** The per-image pipeline *)

Section IngestorFacts.

Variable json_load : string -> result json.
Variable float_of_str : string -> option spec_float.

Local Abbreviation field box key :=
  (v <- getitem box key ;; float_of_json float_of_str v).

Lemma detection_of_box_Ok (width height : Z) (box : json) (d : detection) :
  detection_of_box float_of_str width height box = Ok d ->
  exists min_col max_col min_row max_row,
    getitem box "identity" = Ok (det_label d)
    /\ field box "mincol" = Ok min_col
    /\ field box "maxcol" = Ok max_col
    /\ field box "minrow" = Ok min_row
    /\ field box "maxrow" = Ok max_row
    /\ det_left d = clamp_low min_col
    /\ det_right d = clamp_high width max_col
    /\ det_top d = clamp_low min_row
    /\ det_bottom d = clamp_high height max_row.
Proof.
  unfold detection_of_box. intros H.
  apply bind_Ok_inv in H as (label & Hlabel & H).
  apply bind_Ok_inv in H as (min_col & Hmin_col & H).
  apply bind_Ok_inv in H as (max_col & Hmax_col & H).
  apply bind_Ok_inv in H as (min_row & Hmin_row & H).
  apply bind_Ok_inv in H as (max_row & Hmax_row & H).
  injection H as <-.
  exists min_col, max_col, min_row, max_row.
  repeat split; assumption.
Qed.

Lemma detection_of_box_fields (width height : Z) (box label : json)
      (min_col max_col min_row max_row : spec_float) :
  getitem box "identity" = Ok label ->
  field box "mincol" = Ok min_col ->
  field box "maxcol" = Ok max_col ->
  field box "minrow" = Ok min_row ->
  field box "maxrow" = Ok max_row ->
  detection_of_box float_of_str width height box
  = Ok {| det_label := label;
          det_left := clamp_low min_col;
          det_right := clamp_high width max_col;
          det_top := clamp_low min_row;
          det_bottom := clamp_high height max_row |}.
Proof.
  intros Hl H1 H2 H3 H4. unfold detection_of_box.
  rewrite Hl. cbn [bind]. rewrite H1. cbn [bind]. rewrite H2. cbn [bind].
  rewrite H3. cbn [bind]. rewrite H4. reflexivity.
Qed.

(** One detection per box, in the order of [children], none left out. *)
Lemma _get_detections_Ok (fs : FileSystem) (fpath : string)
      (width height : Z) (dets : list detection) :
  _get_detections json_load float_of_str fs fpath width height = Ok dets ->
  exists content f_json children boxes,
    open_read fs fpath = Ok content
    /\ json_load content = Ok f_json
    /\ getitem f_json "children" = Ok children
    /\ py_iter children = Ok boxes
    /\ Forall2 (fun box d => detection_of_box float_of_str width height box = Ok d)
               boxes dets.
Proof.
  unfold _get_detections. intros H.
  apply bind_Ok_inv in H as (content & Hcontent & H).
  apply bind_Ok_inv in H as (f_json & Hjson & H).
  apply bind_Ok_inv in H as (children & Hchildren & H).
  apply bind_Ok_inv in H as (boxes & Hboxes & H).
  rewrite for_append_mapM in H.
  apply bind_Ok_inv in H as (ys & Hys & H). injection H as <-.
  exists content, f_json, children, boxes.
  repeat split; try assumption.
  now apply mapM_Ok_Forall2.
Qed.

Lemma _get_image_detection_Ok (fs : FileSystem)
      (root sub_dir id image_ext : string) (r : annotated_image) :
  _get_image_detection json_load float_of_str fs root sub_dir id image_ext = Ok r ->
  exists width height dets,
    image_open fs (get_image_path root sub_dir id image_ext) = Ok (width, height)
    /\ _get_detections json_load float_of_str fs
                       (get_label_path root sub_dir id) width height = Ok dets
    /\ image r = {| image_id := id;
                    image_path := get_image_path root sub_dir id image_ext;
                    segmented_path := None;
                    image_width := width;
                    image_height := height |}
    /\ detections r = filter keep_detection dets.
Proof.
  unfold _get_image_detection, _image_dimensions. intros H.
  apply bind_Ok_inv in H as ([width height] & Hdims & H).
  apply bind_Ok_inv in H as (dets & Hdets & H). injection H as <-.
  exists width, height, dets. repeat split; assumption.
Qed.

(** An image that cannot be opened raises the exception of its opening,
    and so does a label file that cannot be read once the image is open. *)
Lemma _get_image_detection_no_image (fs : FileSystem)
      (root sub_dir id image_ext : string) (e : exn) :
  image_open fs (get_image_path root sub_dir id image_ext) = Raise e ->
  _get_image_detection json_load float_of_str fs root sub_dir id image_ext
  = Raise e.
Proof.
  intros H. unfold _get_image_detection, _image_dimensions.
  rewrite H. reflexivity.
Qed.



Lemma mapM_pair (fs : FileSystem) (root sub_dir : string) (ids : list string) :
  mapM (fun id => _get_image_detection json_load float_of_str fs root sub_dir id "png") ids
  = mapM (process_pair json_load float_of_str fs root) (map (pair sub_dir) ids).
Proof.
  induction ids as [|id ids IH]; simpl; [reflexivity|].
  unfold process_pair at 1. simpl. now rewrite IH.
Qed.

Lemma ingest_loops (fs : FileSystem) (root : string)
      (idx : list (string * list string)) :
  forall acc,
    for_each
      (fun results '(sub_dir, image_ids) =>
         for_each
           (fun results id =>
              r <- _get_image_detection json_load float_of_str fs root sub_dir id "png" ;;
              Ok (results ++ [r])%list)
           image_ids results)
      idx acc
    = rs <- mapM (process_pair json_load float_of_str fs root) (pairs_of idx) ;; Ok (acc ++ rs)%list.
Proof.
  induction idx as [|[sub_dir ids] idx IH]; intros acc; simpl.
  - now rewrite app_nil_r.
  - fold (for_append
            (fun id => _get_image_detection json_load float_of_str fs root sub_dir id "png")
            ids acc).
    rewrite for_append_mapM, mapM_pair, mapM_app.
    destruct (mapM (process_pair json_load float_of_str fs root) (map (pair sub_dir) ids)) as [rs1|e];
      simpl; [|reflexivity].
    rewrite IH.
    destruct (mapM (process_pair json_load float_of_str fs root) (pairs_of idx)) as [rs2|e];
      simpl; [|reflexivity].
    now rewrite app_assoc.
Qed.

(** [ingest] loads the index and then maps the per-image pipeline over
    the pairs in order; the first exception ends it. *)
Lemma ingest_mapM (fs : FileSystem) (root : string) :
  ingest json_load float_of_str fs root
  = idx <- _get_image_ids fs root ;; mapM (process_pair json_load float_of_str fs root) (pairs_of idx).
Proof.
  unfold ingest. destruct (_get_image_ids fs root) as [idx|e]; simpl;
    [|reflexivity].
  rewrite ingest_loops.
  destruct (mapM (process_pair json_load float_of_str fs root) (pairs_of idx)); reflexivity.
Qed.

Lemma ingest_Ok_Forall2 (fs : FileSystem) (root : string)
      (rs : list annotated_image) :
  ingest json_load float_of_str fs root = Ok rs ->
  exists idx,
    _get_image_ids fs root = Ok idx
    /\ Forall2 (fun p r => process_pair json_load float_of_str fs root p = Ok r) (pairs_of idx) rs.
Proof.
  rewrite ingest_mapM. intros H.
  apply bind_Ok_inv in H as (idx & Hidx & H).
  exists idx. split; [exact Hidx | now apply mapM_Ok_Forall2].
Qed.

Lemma process_pair_Ok_image (fs : FileSystem) (root : string)
      (p : string * string) (r : annotated_image) :
  process_pair json_load float_of_str fs root p = Ok r ->
  image_id (image r) = snd p
  /\ image_path (image r) = get_image_path root (fst p) (snd p) "png".
Proof.
  intros H. apply _get_image_detection_Ok in H as (w & h & dets & _ & _ & Hi & _).
  rewrite Hi. split; reflexivity.
Qed.

(** Every record of the output comes from one listed pair, and every
    detection in it from one box of that pair's label file. *)
Lemma ingest_detection_origin (fs : FileSystem) (root : string)
      (rs : list annotated_image) (r : annotated_image) (d : detection) :
  ingest json_load float_of_str fs root = Ok rs ->
  In r rs -> In d (detections r) ->
  exists dets box,
    detections r = filter keep_detection dets
    /\ In d dets
    /\ keep_detection d = true
    /\ detection_of_box float_of_str (image_width (image r))
                        (image_height (image r)) box = Ok d.
Proof.
  intros Hrs Hr Hd.
  apply ingest_Ok_Forall2 in Hrs as (idx & _ & Hall).
  destruct (Forall2_In_r _ _ _ _ Hall Hr) as (p & _ & Hp).
  apply _get_image_detection_Ok in Hp as (w & h & dets & _ & Hdets & Hi & Hf).
  rewrite Hf in Hd. apply filter_In in Hd as [Hd Hkeep].
  apply _get_detections_Ok in Hdets as (_ & _ & _ & boxes & _ & _ & _ & _ & Hboxes).
  destruct (Forall2_In_r _ _ _ _ Hboxes Hd) as (box & _ & Hbox).
  exists dets, box. rewrite Hi. simpl. repeat split; assumption.
Qed.

End IngestorFacts.

(** ** Detections *)

(** C2. [_get_detections] turns every box into one detection, in order and
    without filtering: the four coordinates are converted to floats and
    only the four one-sided clamps are applied to them (left and top below
    0 become 0, right and bottom at or beyond the width and the height
    become width - 1 and height - 1). The box
    [{identity: pedestrian, mincol: -5, minrow: 10, maxcol: 50, maxrow: 60}]
    on a 40x100 image becomes [{left: 0, top: 10, right: 39, bottom: 60}]
    and passes the degenerate-box filter. *)
Theorem parse_detections_clamps :
  (forall float_of_str width height box d,
      detection_of_box float_of_str width height box = Ok d ->
      exists min_col max_col min_row max_row,
        getitem box "identity" = Ok (det_label d)
        /\ (v <- getitem box "mincol" ;; float_of_json float_of_str v) = Ok min_col
        /\ (v <- getitem box "maxcol" ;; float_of_json float_of_str v) = Ok max_col
        /\ (v <- getitem box "minrow" ;; float_of_json float_of_str v) = Ok min_row
        /\ (v <- getitem box "maxrow" ;; float_of_json float_of_str v) = Ok max_row
        /\ det_left d
           = (if py_lt (PyFloat min_col) (PyInt 0) then PyInt 0
              else PyFloat min_col)
        /\ det_right d
           = (if py_ge (PyFloat max_col) (PyInt width) then PyInt (width - 1)
              else PyFloat max_col)
        /\ det_top d
           = (if py_lt (PyFloat min_row) (PyInt 0) then PyInt 0
              else PyFloat min_row)
        /\ det_bottom d
           = (if py_ge (PyFloat max_row) (PyInt height) then PyInt (height - 1)
              else PyFloat max_row))
  /\ (forall json_load float_of_str fs fpath width height dets,
         _get_detections json_load float_of_str fs fpath width height = Ok dets ->
         exists content f_json children boxes,
           open_read fs fpath = Ok content
           /\ json_load content = Ok f_json
           /\ getitem f_json "children" = Ok children
           /\ py_iter children = Ok boxes
           /\ Forall2 (fun box d =>
                         detection_of_box float_of_str width height box = Ok d)
                      boxes dets)
  /\ (let box := example_box (JInt (-5)) (JInt 10) (JInt 50) (JInt 60) in
      let d := {| det_label := JStr "pedestrian";
                  det_left := PyInt 0;
                  det_top := PyFloat (b64 10 0);
                  det_right := PyInt 39;
                  det_bottom := PyFloat (b64 60 0) |} in
      detection_of_box no_float_of_str 40 100 box = Ok d
      /\ py_eq (det_top d) (PyInt 10) = true
      /\ py_eq (det_bottom d) (PyInt 60) = true
      /\ keep_detection d = true
      /\ _get_image_detection (example_json_load [box]) no_float_of_str
           (example_fs None None None (Some "") (Some (40, 100)))
           "data" "train" "a" "png"
         = Ok {| image := {| image_id := "a";
                             image_path := "data/leftImg8bit/train/tsinghuaDaimlerDataset/a_leftImg8bit.png";
                             segmented_path := None;
                             image_width := 40;
                             image_height := 100 |};
                 detections := [d] |}).
Proof.
  split; [exact detection_of_box_Ok|].
  split; [exact _get_detections_Ok|].
  vm_compute. repeat split; reflexivity.
Qed.

Lemma parse_detections_clamps_witness :
  let box := example_box (JInt (-5)) (JInt 10) (JInt 50) (JInt 60) in
  exists d min_col max_col,
    detection_of_box no_float_of_str 40 100 box = Ok d
    /\ (v <- getitem box "mincol" ;; float_of_json no_float_of_str v) = Ok min_col
    /\ (v <- getitem box "maxcol" ;; float_of_json no_float_of_str v) = Ok max_col
    /\ py_lt (PyFloat min_col) (PyInt 0) = true
    /\ py_ge (PyFloat max_col) (PyInt 40) = true
    /\ det_left d = PyInt 0
    /\ det_right d = PyInt (40 - 1).
Proof.
  intros box.
  destruct parse_detections_clamps as (Hbox & _ & Hex).
  destruct Hex as (Hd & _).
  destruct (Hbox no_float_of_str 40 100 _ _ Hd)
    as (min_col & max_col & min_row & max_row
        & _ & Hmin_col & Hmax_col & _ & _ & Hl & Hr & _ & _).
  eexists _, min_col, max_col.
  split; [exact Hd|]. split; [exact Hmin_col|]. split; [exact Hmax_col|].
  vm_compute in Hmin_col, Hmax_col.
  injection Hmin_col as <-. injection Hmax_col as <-.
  split; [reflexivity|]. split; [reflexivity|].
  split; [exact Hl | exact Hr].
Defined.

(** C1. Every detection of every record that [ingest] returns has
    [left < right] and [top < bottom]: the record holds exactly the parsed
    detections that pass this test, in order, and the others are left out
    without an exception or a trace in the record. With [mincol = 39] and
    [maxcol = 40] on an image of width 40, right is clamped to 39, equal to
    left, and the record has no detection. *)
Theorem ingest_detections_non_degenerate :
  (forall json_load float_of_str fs root rs r d,
      ingest json_load float_of_str fs root = Ok rs ->
      In r rs -> In d (detections r) ->
      py_lt (det_left d) (det_right d) = true
      /\ py_lt (det_top d) (det_bottom d) = true)
  /\ (forall json_load float_of_str fs root sub_dir id ext r,
         _get_image_detection json_load float_of_str fs root sub_dir id ext = Ok r ->
         exists dets,
           _get_detections json_load float_of_str fs
             (get_label_path root sub_dir id)
             (image_width (image r)) (image_height (image r)) = Ok dets
           /\ detections r
              = filter (fun det => py_lt (det_left det) (det_right det)
                                   && py_lt (det_top det) (det_bottom det)) dets)
  /\ (let box := example_box (JInt 39) (JInt 10) (JInt 40) (JInt 60) in
      let index := Some "a_leftImg8bit" in
      let record sub_dir :=
        {| image := {| image_id := "a";
                       image_path := "data/leftImg8bit/" ++ sub_dir
                                     ++ "/tsinghuaDaimlerDataset/a_leftImg8bit.png";
                       segmented_path := None;
                       image_width := 40;
                       image_height := 100 |};
           detections := [] |} in
      detection_of_box no_float_of_str 40 100 box
      = Ok {| det_label := JStr "pedestrian";
              det_left := PyFloat (b64 39 0);
              det_top := PyFloat (b64 10 0);
              det_right := PyInt 39;
              det_bottom := PyFloat (b64 60 0) |}
      /\ py_eq (PyFloat (b64 39 0)) (PyInt 39) = true
      /\ ingest (example_json_load [box]) no_float_of_str
           (example_fs index index index (Some "") (Some (40, 100))) "data"
         = Ok [record "train"; record "valid"; record "test"]).
Proof.
  split.
  { intros jl fos fs root rs r d Hrs Hr Hd.
    destruct (ingest_detection_origin jl fos fs root rs r d Hrs Hr Hd)
      as (_ & _ & _ & _ & Hkeep & _).
    now apply andb_true_iff in Hkeep. }
  split.
  { intros jl fos fs root sub_dir id ext r H.
    apply _get_image_detection_Ok in H as (w & h & dets & _ & Hdets & Hi & Hf).
    exists dets. rewrite Hi. split; [exact Hdets | exact Hf]. }
  vm_compute. repeat split; reflexivity.
Qed.

Lemma ingest_detections_non_degenerate_witness :
  let box := example_box (JInt (-5)) (JInt 10) (JInt 50) (JInt 60) in
  let index := Some "a_leftImg8bit" in
  exists rs r d,
    ingest (example_json_load [box]) no_float_of_str
      (example_fs index index index (Some "") (Some (40, 100))) "data" = Ok rs
    /\ In r rs /\ In d (detections r)
    /\ py_lt (det_left d) (det_right d) = true
    /\ py_lt (det_top d) (det_bottom d) = true.
Proof.
  intros box index.
  eexists _, _, _.
  split; [vm_compute; reflexivity|].
  split; [left; reflexivity|].
  split; [left; reflexivity|].
  refine (proj1 ingest_detections_non_degenerate
            (example_json_load [box]) no_float_of_str
            (example_fs index index index (Some "") (Some (40, 100))) "data"
            _ _ _ _ _ _).
  - vm_compute. reflexivity.
  - left. reflexivity.
  - left. reflexivity.
Defined.

(** A detection of a box is low-clamped on the left and the top and
    high-clamped on the right and the bottom. *)
Lemma detection_of_box_bounds (float_of_str : string -> option spec_float)
      (width height : Z) (box : json) (d : detection) :
  detection_of_box float_of_str width height box = Ok d ->
  keep_detection d = true ->
  py_le (PyInt 0) (det_left d) = true
  /\ py_lt (det_left d) (det_right d) = true
  /\ py_lt (det_right d) (PyInt width) = true
  /\ py_le (PyInt 0) (det_top d) = true
  /\ py_lt (det_top d) (det_bottom d) = true
  /\ py_lt (det_bottom d) (PyInt height) = true.
Proof.
  intros Hbox Hkeep.
  apply detection_of_box_Ok in Hbox
    as (min_col & max_col & min_row & max_row & _ & _ & _ & _ & _
        & Hl & Hr & Ht & Hb).
  apply andb_true_iff in Hkeep as [Hlr Htb].
  destruct (py_lt_is_number _ _ Hlr) as [Hnl Hnr].
  destruct (py_lt_is_number _ _ Htb) as [Hnt Hnb].
  repeat split; try assumption.
  - rewrite Hl in *. now apply clamp_low_nonneg.
  - rewrite Hr in *. now apply clamp_high_below.
  - rewrite Ht in *. now apply clamp_low_nonneg.
  - rewrite Hb in *. now apply clamp_high_below.
Qed.

(** C9, as stated, fails: a right edge of 39.5 on an image of width 40 is
    below the width, so it is not clamped, and the detection survives with
    [right > width - 1]. *)
Lemma ingest_detection_beyond_last_column :
  let box := example_box (JInt 0) (JInt 10) (JFloat (b64 79 (-1))) (JInt 60) in
  let index := Some "a_leftImg8bit" in
  exists rs r d,
    ingest (example_json_load [box]) no_float_of_str
      (example_fs index index index (Some "") (Some (40, 100))) "data" = Ok rs
    /\ In r rs /\ In d (detections r)
    /\ image_width (image r) = 40
    /\ det_right d = PyFloat (b64 79 (-1))
    /\ py_lt (PyInt 39) (det_right d) = true
    /\ py_le (det_right d) (PyInt (image_width (image r) - 1)) = false.
Proof.
  cbv zeta. eexists _, _, _. vm_compute.
  split; [reflexivity|].
  split; [left; reflexivity|].
  split; [left; reflexivity|].
  repeat split; reflexivity.
Qed.

(** C9, amended. Every detection of an output record has
    [0 <= left < right < width] and [0 <= top < bottom < height]; a right
    or bottom edge that is an integer is moreover at most [width - 1] or
    [height - 1]. *)
Theorem ingest_detections_in_image
        (json_load : string -> result json)
        (float_of_str : string -> option spec_float)
        (fs : FileSystem) (root : string)
        (rs : list annotated_image) (r : annotated_image) (d : detection) :
  ingest json_load float_of_str fs root = Ok rs ->
  In r rs -> In d (detections r) ->
  let width := image_width (image r) in
  let height := image_height (image r) in
  py_le (PyInt 0) (det_left d) = true
  /\ py_lt (det_left d) (det_right d) = true
  /\ py_lt (det_right d) (PyInt width) = true
  /\ py_le (PyInt 0) (det_top d) = true
  /\ py_lt (det_top d) (det_bottom d) = true
  /\ py_lt (det_bottom d) (PyInt height) = true
  /\ (forall k, py_eq (det_right d) (PyInt k) = true ->
                py_le (det_right d) (PyInt (width - 1)) = true)
  /\ (forall k, py_eq (det_bottom d) (PyInt k) = true ->
                py_le (det_bottom d) (PyInt (height - 1)) = true).
Proof.
  intros Hrs Hr Hd width height.
  destruct (ingest_detection_origin json_load float_of_str fs root rs r d Hrs Hr Hd)
    as (_ & box & _ & _ & Hkeep & Hbox).
  destruct (detection_of_box_bounds _ _ _ _ _ Hbox Hkeep)
    as (H1 & H2 & H3 & H4 & H5 & H6).
  repeat split; try assumption.
  - intros k Hk. now apply py_lt_int_le_pred with (k := k).
  - intros k Hk. now apply py_lt_int_le_pred with (k := k).
Qed.

Lemma ingest_detections_in_image_witness :
  let box := example_box (JInt (-5)) (JInt 10) (JInt 50) (JInt 60) in
  let index := Some "a_leftImg8bit" in
  let d := {| det_label := JStr "pedestrian";
              det_left := PyInt 0;
              det_top := PyFloat (b64 10 0);
              det_right := PyInt 39;
              det_bottom := PyFloat (b64 60 0) |} in
  py_le (PyInt 0) (det_left d) = true
  /\ py_lt (det_left d) (det_right d) = true
  /\ py_lt (det_right d) (PyInt 40) = true
  /\ py_le (PyInt 0) (det_top d) = true
  /\ py_lt (det_top d) (det_bottom d) = true
  /\ py_lt (det_bottom d) (PyInt 100) = true
  /\ (forall k, py_eq (det_right d) (PyInt k) = true ->
                py_le (det_right d) (PyInt (40 - 1)) = true)
  /\ (forall k, py_eq (det_bottom d) (PyInt k) = true ->
                py_le (det_bottom d) (PyInt (100 - 1)) = true).
Proof.
  intros box index d.
  refine (ingest_detections_in_image
            (example_json_load [box]) no_float_of_str
            (example_fs index index index (Some "") (Some (40, 100))) "data"
            _ {| image := {| image_id := "a";
                             image_path := "data/leftImg8bit/train/tsinghuaDaimlerDataset/a_leftImg8bit.png";
                             segmented_path := None;
                             image_width := 40;
                             image_height := 100 |};
                 detections := [d] |}
            d _ _ _).
  - vm_compute. reflexivity.
  - left. reflexivity.
  - left. reflexivity.
Defined.

(** ** The top-level loop *)

Lemma mapM_total {A B : Type} (f : A -> result B) (xs : list A) :
  (forall x, In x xs -> exists y, f x = Ok y) -> exists ys, mapM f xs = Ok ys.
Proof.
  induction xs as [|x xs IH]; simpl; intros H.
  - now exists [].
  - destruct (H x (or_introl eq_refl)) as [y Hy].
    destruct IH as [ys Hys]; [intros a Ha; apply H; now right|].
    exists (y :: ys). now rewrite Hy, Hys.
Qed.

Lemma _get_image_ids_read (fs : FileSystem) (root train valid test : string) :
  open_read fs (root ++ "/train.txt") = Ok train ->
  open_read fs (root ++ "/valid.txt") = Ok valid ->
  open_read fs (root ++ "/test.txt") = Ok test ->
  _get_image_ids fs root
  = Ok [("train", image_ids_of train);
        ("valid", image_ids_of valid);
        ("test", image_ids_of test)].
Proof.
  intros Ht Hv He. rewrite _get_image_ids_unrolled. unfold read_index.
  change (index_path root "train") with (root ++ "/train.txt").
  change (index_path root "valid") with (root ++ "/valid.txt").
  change (index_path root "test") with (root ++ "/test.txt").
  rewrite Ht, Hv, He. reflexivity.
Qed.

(** C8. The image path of every record that [ingest] returns is
    [{root}/leftImg8bit/{split}/tsinghuaDaimlerDataset/{id}_leftImg8bit.png]
    for the record's (split, identifier) pair: the extension is [png]
    for all of them, and the path is built from the three strings alone,
    without looking at the file system. *)
Theorem ingest_image_paths
        (json_load : string -> result json)
        (float_of_str : string -> option spec_float)
        (fs : FileSystem) (root : string) (rs : list annotated_image) :
  ingest json_load float_of_str fs root = Ok rs ->
  exists idx,
    _get_image_ids fs root = Ok idx
    /\ Forall2 (fun p r =>
                  image_id (image r) = snd p
                  /\ image_path (image r)
                     = root ++ "/leftImg8bit/" ++ fst p
                            ++ "/tsinghuaDaimlerDataset/" ++ snd p
                            ++ "_leftImg8bit.png"
                  /\ image_path (image r)
                     = get_image_path root (fst p) (snd p) "png")
               (pairs_of idx) rs.
Proof.
  intros Hrs.
  apply ingest_Ok_Forall2 in Hrs as (idx & Hidx & Hall).
  exists idx. split; [exact Hidx|].
  eapply Forall2_impl; [|exact Hall].
  intros p r Hp.
  apply process_pair_Ok_image in Hp as [Hid Hpath].
  repeat split; assumption.
Qed.

Lemma ingest_image_paths_witness :
  exists rs,
    ingest (example_json_load []) no_float_of_str
      (example_fs (Some "a_leftImg8bit") (Some "b_leftImg8bit")
                  (Some "c_leftImg8bit") (Some "") (Some (40, 100))) "data"
    = Ok rs
    /\ Forall2 (fun p r => image_id (image r) = snd p
                           /\ image_path (image r)
                              = "data" ++ "/leftImg8bit/" ++ fst p
                                  ++ "/tsinghuaDaimlerDataset/" ++ snd p
                                  ++ "_leftImg8bit.png"
                           /\ image_path (image r)
                              = get_image_path "data" (fst p) (snd p) "png")
               [("train", "a"); ("valid", "b"); ("test", "c")] rs.
Proof.
  eexists. split; [vm_compute; reflexivity|].
  destruct (ingest_image_paths
              (example_json_load []) no_float_of_str
              (example_fs (Some "a_leftImg8bit") (Some "b_leftImg8bit")
                          (Some "c_leftImg8bit") (Some "") (Some (40, 100)))
              "data" _ eq_refl) as (idx & Hidx & Hall).
  vm_compute in Hidx. injection Hidx as <-. exact Hall.
Defined.

(** ** Missing files *)




(** ** Empty index files *)

Lemma image_ids_of_all_space (content : string) :
  all_space content = true -> image_ids_of content = [""].
Proof.
  intros H. unfold image_ids_of. now rewrite (strip_all_space content H).
Qed.

(** C10. An index file that is empty or holds only whitespace gives the
    one-element list of the empty identifier, not the empty list; [ingest]
    then processes the image whose identifier is the empty string: a list
    it returns has a record for it, and it raises when the image
    [{root}/leftImg8bit/{split}/tsinghuaDaimlerDataset/_leftImg8bit.png]
    cannot be opened. *)
Theorem empty_index_yields_empty_id
        (json_load : string -> result json)
        (float_of_str : string -> option spec_float)
        (fs : FileSystem) (root sub_dir content : string) :
  In sub_dir sub_dirs ->
  open_read fs (root ++ "/" ++ sub_dir ++ ".txt") = Ok content ->
  all_space content = true ->
  let path :=
    root ++ "/leftImg8bit/" ++ sub_dir
         ++ "/tsinghuaDaimlerDataset/_leftImg8bit.png" in
  image_ids_of content = [""]
  /\ (forall idx, _get_image_ids fs root = Ok idx -> In (sub_dir, [""]) idx)
  /\ (forall rs,
         ingest json_load float_of_str fs root = Ok rs ->
         exists r,
           In r rs
           /\ _get_image_detection json_load float_of_str fs root sub_dir "" "png"
              = Ok r
           /\ image_id (image r) = ""
           /\ image_path (image r) = path)
  /\ (forall e0, image_open fs path = Raise e0 ->
                 exists e, ingest json_load float_of_str fs root = Raise e).
Proof.
  intros Hin Hread Hspace path.
  pose proof (image_ids_of_all_space content Hspace) as Hids.
  assert (Hidx : forall idx, _get_image_ids fs root = Ok idx ->
                             In (sub_dir, [""]) idx).
  { intros idx H.
    apply _get_image_ids_Ok in H as (a & b & c & Ha & Hb & Hc & ->).
    change (root ++ "/" ++ sub_dir ++ ".txt") with (index_path root sub_dir) in Hread.
    simpl in Hin. destruct Hin as [<-|[<-|[<-|[]]]].
    - rewrite Hread in Ha. injection Ha as <-. rewrite Hids. simpl; tauto.
    - rewrite Hread in Hb. injection Hb as <-. rewrite Hids. simpl; tauto.
    - rewrite Hread in Hc. injection Hc as <-. rewrite Hids. simpl; tauto. }
  assert (Hpair : forall idx, _get_image_ids fs root = Ok idx ->
                              In (sub_dir, "") (pairs_of idx)).
  { intros idx H. unfold pairs_of. apply in_flat_map.
    exists (sub_dir, [""]). split; [now apply Hidx | simpl; tauto]. }
  split; [exact Hids|]. split; [exact Hidx|]. split.
  - intros rs Hrs.
    apply ingest_Ok_Forall2 in Hrs as (idx & Hi & Hall).
    destruct (Forall2_In_l _ _ _ _ Hall (Hpair idx Hi)) as (r & Hr & Hp).
    exists r. split; [exact Hr|]. split; [exact Hp|].
    apply process_pair_Ok_image in Hp as [Hid Hpath].
    split; [exact Hid | exact Hpath].
  - intros e0 Hnone. rewrite ingest_mapM.
    destruct (_get_image_ids fs root) as [idx|e] eqn:Hi; cbn [bind];
      [|now exists e].
    apply (mapM_In_Raise (process_pair json_load float_of_str fs root)
             (pairs_of idx) (sub_dir, "") e0 (Hpair idx eq_refl)).
    now apply _get_image_detection_no_image.
Qed.

Lemma empty_index_yields_empty_id_witness :
  let index := Some "a_leftImg8bit" in
  let blank := " " ++ String LF " " in
  image_ids_of blank = [""]
  /\ exists rs r,
      ingest (example_json_load []) no_float_of_str
        (example_fs index (Some blank) index (Some "") (Some (40, 100))) "data"
      = Ok rs
      /\ In r rs
      /\ image_id (image r) = ""
      /\ image_path (image r)
         = "data/leftImg8bit/valid/tsinghuaDaimlerDataset/_leftImg8bit.png".
Proof.
  intros index blank.
  destruct (empty_index_yields_empty_id
              (example_json_load []) no_float_of_str
              (example_fs index (Some blank) index (Some "") (Some (40, 100)))
              "data" "valid" blank)
    as (Hids & _ & Hrecord & _).
  - simpl; tauto.
  - reflexivity.
  - reflexivity.
  - split; [exact Hids|].
    destruct (Hrecord _ eq_refl) as (r & Hr & _ & Hid & Hpath).
    eexists _, r. split; [reflexivity|].
    split; [exact Hr|]. split; [exact Hid | exact Hpath].
Defined.

(** ** Round trip *)

Lemma box_number_field (float_of_str : string -> option spec_float)
      (box : json) (key : string) (x : pynum) :
  box_number box key = Some x ->
  (v <- getitem box key ;; float_of_json float_of_str v) = py_float x.
Proof.
  unfold box_number. destruct (getitem box key) as [v|e]; [|discriminate].
  cbn [bind]. destruct v; cbn [json_number]; intros H;
    try discriminate H; injection H as <-; reflexivity.
Qed.

Theorem unclamped_box_round_trip
        (float_of_str : string -> option spec_float)
        (width height : Z) (box label : json)
        (mincol maxcol minrow maxrow : pynum)
        (left_ right_ top bottom : spec_float) :
  getitem box "identity" = Ok label ->
  box_number box "mincol" = Some mincol ->
  box_number box "maxcol" = Some maxcol ->
  box_number box "minrow" = Some minrow ->
  box_number box "maxrow" = Some maxrow ->
  py_ge mincol (PyInt 0) = true ->
  py_lt maxcol (PyInt width) = true ->
  py_ge minrow (PyInt 0) = true ->
  py_lt maxrow (PyInt height) = true ->
  py_float mincol = Ok left_ ->
  py_float maxcol = Ok right_ ->
  py_float minrow = Ok top ->
  py_float maxrow = Ok bottom ->
  exists d,
    detection_of_box float_of_str width height box = Ok d
    /\ det_label d = label
    /\ det_left d = PyFloat left_
    /\ py_float (det_right d) = Ok right_
    /\ det_top d = PyFloat top
    /\ py_float (det_bottom d) = Ok bottom
    /\ (py_lt (PyFloat right_) (PyInt width) = true -> det_right d = PyFloat right_)
    /\ (py_lt (PyFloat bottom) (PyInt height) = true -> det_bottom d = PyFloat bottom).
Proof.
  intros Hlabel Hmincol Hmaxcol Hminrow Hmaxrow Hl Hr Ht Hb Fl Fr Ft Fb.
  eexists. split.
  { apply detection_of_box_fields; [exact Hlabel | | | |].
    - rewrite (box_number_field _ _ _ _ Hmincol). exact Fl.
    - rewrite (box_number_field _ _ _ _ Hmaxcol). exact Fr.
    - rewrite (box_number_field _ _ _ _ Hminrow). exact Ft.
    - rewrite (box_number_field _ _ _ _ Hmaxrow). exact Fb. }
  cbn [det_label det_left det_right det_top det_bottom].
  split; [reflexivity|].
  split; [exact (clamp_low_unclamped mincol left_ Fl Hl)|].
  split; [exact (clamp_high_unclamped maxcol right_ width Fr Hr)|].
  split; [exact (clamp_low_unclamped minrow top Ft Ht)|].
  split; [exact (clamp_high_unclamped maxrow bottom height Fb Hb)|].
  split; apply clamp_high_below_bound.
Qed.

Lemma unclamped_box_round_trip_witness :
  let box := example_box (JInt 5) (JInt 10) (JFloat (b64 61 (-1))) (JInt 60) in
  exists d,
    detection_of_box no_float_of_str 40 100 box = Ok d
    /\ det_label d = JStr "pedestrian"
    /\ det_left d = PyFloat (b64 5 0)
    /\ py_float (det_right d) = Ok (b64 61 (-1))
    /\ det_top d = PyFloat (b64 10 0)
    /\ py_float (det_bottom d) = Ok (b64 60 0)
    /\ (py_lt (PyFloat (b64 61 (-1))) (PyInt 40) = true ->
        det_right d = PyFloat (b64 61 (-1)))
    /\ (py_lt (PyFloat (b64 60 0)) (PyInt 100) = true ->
        det_bottom d = PyFloat (b64 60 0)).
Proof.
  intros box.
  exact (unclamped_box_round_trip
           no_float_of_str 40 100 box (JStr "pedestrian")
           (PyInt 5) (PyFloat (b64 61 (-1))) (PyInt 10) (PyInt 60)
           (b64 5 0) (b64 61 (-1)) (b64 10 0) (b64 60 0)
           eq_refl eq_refl eq_refl eq_refl eq_refl
           eq_refl eq_refl eq_refl eq_refl
           eq_refl eq_refl eq_refl eq_refl).
Defined.

(** An [int] right edge that [float] rounds up to the width: the clamp
    fires although [maxcol < width], and the clamped edge [width - 1] has
    the float of [maxcol]. *)
Example rounded_up_edge :
  let maxcol := 2 ^ 60 + 200 in
  let width := 2 ^ 60 + 256 in
  let box := example_box (JInt 0) (JInt 10) (JInt maxcol) (JInt 60) in
  float_of_int maxcol = Ok (b64 width 0)
  /\ py_lt (PyInt maxcol) (PyInt width) = true
  /\ detection_of_box no_float_of_str width 100 box
     = Ok {| det_label := JStr "pedestrian";
             det_left := PyFloat (b64 0 0);
             det_top := PyFloat (b64 10 0);
             det_right := PyInt (width - 1);
             det_bottom := PyFloat (b64 60 0) |}
  /\ float_of_int (width - 1) = float_of_int maxcol.
Proof.
  cbv zeta. repeat split; vm_compute; reflexivity.
Qed.

(** * Further properties *)

(** ** Paths of the data set *)

Lemma append_inj_l (s a b : string) : s ++ a = s ++ b -> a = b.
Proof.
  induction s as [|c s IH]; simpl; intros H; [exact H|].
  injection H as H. exact (IH H).
Qed.

Lemma append_inj_same_length (a b s t : string) :
  String.length a = String.length b -> a ++ s = b ++ t -> a = b /\ s = t.
Proof.
  revert b. induction a as [|c a IH]; intros [|c' b] Hlen H;
    simpl in Hlen; try discriminate Hlen.
  - split; [reflexivity | exact H].
  - simpl in H. injection H as -> H. injection Hlen as Hlen.
    destruct (IH b Hlen H) as [-> ->]. split; reflexivity.
Qed.

Lemma append_inj_r (a b s : string) : a ++ s = b ++ s -> a = b.
Proof.
  intros H.
  assert (Hlen : String.length a = String.length b).
  { apply (f_equal String.length) in H. rewrite !length_append in H. lia. }
  exact (proj1 (append_inj_same_length a b s s Hlen H)).
Qed.

(** The tail of a path after the root and the fixed tree name determines
    the split (one of train, valid, test) and the identifier. *)
Lemma split_tail_inj (s1 s2 i1 i2 rest : string) :
  In s1 sub_dirs -> In s2 sub_dirs ->
  s1 ++ "/tsinghuaDaimlerDataset/" ++ i1 ++ rest
  = s2 ++ "/tsinghuaDaimlerDataset/" ++ i2 ++ rest ->
  s1 = s2 /\ i1 = i2.
Proof.
  intros H1 H2 H. simpl in H1, H2.
  destruct H1 as [<-|[<-|[<-|[]]]]; destruct H2 as [<-|[<-|[<-|[]]]];
    simpl in H; try discriminate H;
    (split; [reflexivity|]);
    injection H as H; exact (append_inj_r _ _ _ H).
Qed.

(** X1. Under one root, the image path and the label path each determine
    the split and the identifier: two listed (split, identifier) pairs never
    share an image file or a label file, and no image path is a label
    path. *)
Theorem paths_determine_pair (root s1 s2 i1 i2 : string) :
  In s1 sub_dirs -> In s2 sub_dirs ->
  (forall ext, get_image_path root s1 i1 ext = get_image_path root s2 i2 ext ->
               s1 = s2 /\ i1 = i2)
  /\ (get_label_path root s1 i1 = get_label_path root s2 i2 ->
      s1 = s2 /\ i1 = i2)
  /\ (forall ext, get_image_path root s1 i1 ext <> get_label_path root s2 i2).
Proof.
  intros H1 H2. unfold get_image_path, get_label_path.
  split; [|split].
  - intros ext H. apply append_inj_l in H.
    apply (append_inj_l "/leftImg8bit/") in H.
    exact (split_tail_inj s1 s2 i1 i2 ("_leftImg8bit." ++ ext) H1 H2 H).
  - intros H. apply append_inj_l in H.
    apply (append_inj_l "/labelData/") in H.
    exact (split_tail_inj s1 s2 i1 i2 "_labelData.json" H1 H2 H).
  - intros ext H. apply append_inj_l in H. simpl in H. discriminate H.
Qed.

Lemma paths_determine_pair_witness :
  ("train" = "train" /\ "a" = "a")
  /\ get_image_path "data" "train" "a" "png" <> get_label_path "data" "valid" "b".
Proof.
  destruct (paths_determine_pair "data" "train" "train" "a" "a") as (_ & Hlabel & _).
  - simpl; tauto.
  - simpl; tauto.
  - split; [exact (Hlabel eq_refl)|].
    refine (proj2 (proj2 (paths_determine_pair "data" "train" "valid" "a" "b" _ _))
              "png").
    + simpl; tauto.
    + simpl; tauto.
Defined.

(** ** Index files: writing and loading *)

Lemma last_char_None (s : string) : last_char s = None -> s = "".
Proof.
  destruct s as [|c s]; simpl; [reflexivity|].
  destruct (last_char s); discriminate.
Qed.

Lemma last_char_app (a b : string) (c : ascii) :
  last_char b = Some c -> last_char (a ++ b) = Some c.
Proof.
  intros Hb. induction a as [|x a IH]; simpl; [exact Hb | now rewrite IH].
Qed.

Lemma lstrip_app_space (l x : string) :
  all_space l = true -> lstrip (l ++ x) = lstrip x.
Proof.
  induction l as [|c l IH]; simpl; [reflexivity|].
  intros H. apply andb_true_iff in H as [Hc Hl]. rewrite Hc. exact (IH Hl).
Qed.

Lemma lstrip_nonspace (x : string) : starts_nonspace x -> lstrip x = x.
Proof.
  destruct x as [|c t]; simpl; [reflexivity|].
  intros H. now rewrite (H c t eq_refl).
Qed.

Lemma rstrip_all_space (s : string) : all_space s = true -> rstrip s = "".
Proof.
  induction s as [|c s IH]; simpl; [reflexivity|].
  intros H. apply andb_true_iff in H as [Hc Hs].
  rewrite (IH Hs), Hc. reflexivity.
Qed.

Lemma rstrip_app_space (x r : string) :
  all_space r = true -> rstrip (x ++ r) = rstrip x.
Proof.
  intros Hr. induction x as [|c x IH]; simpl.
  - now apply rstrip_all_space.
  - now rewrite IH.
Qed.

Lemma rstrip_nonspace (x : string) (c : ascii) :
  last_char x = Some c -> is_space c = false -> rstrip x = x.
Proof.
  intros Hlast Hc. induction x as [|a x IH]; simpl in *; [reflexivity|].
  destruct (last_char x) as [c'|] eqn:Hx.
  - rewrite (IH Hlast). destruct x; [discriminate Hx | reflexivity].
  - apply last_char_None in Hx. subst x. injection Hlast as ->.
    simpl. now rewrite Hc.
Qed.

(** [strip] gives back a text that neither starts nor ends with whitespace
    from any whitespace put around it. *)
Lemma strip_wrapped (l x r : string) (c : ascii) :
  all_space l = true -> all_space r = true ->
  starts_nonspace x -> last_char x = Some c -> is_space c = false ->
  strip (l ++ x ++ r) = x.
Proof.
  intros Hl Hr Hfirst Hlast Hc. unfold strip.
  rewrite (lstrip_app_space l _ Hl).
  assert (Hs : starts_nonspace (x ++ r)).
  { destruct x as [|a x]; [discriminate Hlast|].
    intros c0 t H. simpl in H. injection H as <- _. exact (Hfirst a x eq_refl). }
  rewrite (lstrip_nonspace _ Hs), (rstrip_app_space x r Hr).
  exact (rstrip_nonspace x c Hlast Hc).
Qed.

Lemma str_split_single (sep : ascii) (p : string) :
  no_sep sep p -> str_split sep p = [p].
Proof.
  unfold no_sep. induction p as [|c p IH]; simpl; intros H; [reflexivity|].
  destruct (Ascii.eqb_spec c sep) as [->|Hne]; [tauto|].
  rewrite IH by tauto. reflexivity.
Qed.

Lemma str_split_piece (sep : ascii) (p rest : string) :
  no_sep sep p ->
  str_split sep (p ++ String sep rest) = p :: str_split sep rest.
Proof.
  unfold no_sep. induction p as [|c p IH]; simpl; intros H.
  - now rewrite Ascii.eqb_refl.
  - destruct (Ascii.eqb_spec c sep) as [->|Hne]; [tauto|].
    rewrite IH by tauto. reflexivity.
Qed.

(** Splitting undoes joining, for pieces without the separator. *)
Lemma str_split_concat (sep : ascii) (pieces : list string) :
  pieces <> [] -> Forall (no_sep sep) pieces ->
  str_split sep (String.concat (String sep "") pieces) = pieces.
Proof.
  induction pieces as [|p pieces IH]; intros Hne Hall; [contradiction|].
  inversion Hall as [|? ? Hp Hrest]; subst.
  destruct pieces as [|q pieces].
  - simpl. now apply str_split_single.
  - rewrite concat_cons by discriminate.
    cbn [append]. rewrite (str_split_piece sep p _ Hp).
    now rewrite IH by (discriminate || assumption).
Qed.

Lemma list_ascii_of_string_app (a b : string) :
  list_ascii_of_string (a ++ b)
  = (list_ascii_of_string a ++ list_ascii_of_string b)%list.
Proof.
  induction a as [|c a IH]; simpl; [reflexivity | now rewrite IH].
Qed.

Lemma no_sep_suffix (id : string) : no_sep LF id -> no_sep LF (id ++ suffix).
Proof.
  unfold no_sep. rewrite list_ascii_of_string_app. intros H Hin.
  apply in_app_or in Hin as [Hin|Hin]; [tauto|].
  simpl in Hin. repeat (destruct Hin as [Hin|Hin]; [discriminate Hin|]).
  exact Hin.
Qed.

Lemma last_char_concat (sep : string) (pieces : list string) (c : ascii) :
  pieces <> [] -> Forall (fun p => last_char p = Some c) pieces ->
  last_char (String.concat sep pieces) = Some c.
Proof.
  induction pieces as [|p pieces IH]; intros Hne Hall; [contradiction|].
  inversion Hall as [|? ? Hp Hrest]; subst.
  destruct pieces as [|q pieces]; [exact Hp|].
  rewrite concat_cons by discriminate.
  apply last_char_app. apply last_char_app.
  apply IH; [discriminate | exact Hrest].
Qed.

(** X2. Loading undoes writing: an index file made of the identifiers, each
    followed by [_leftImg8bit], joined by newlines, with any whitespace
    before and after (a final newline, say), loads as exactly these
    identifiers, provided that the list is not empty, no identifier holds a
    newline and the first one does not start with whitespace. *)
Theorem index_round_trip (ids : list string) (l r : string) :
  ids <> [] ->
  Forall (no_sep LF) ids ->
  starts_nonspace (hd "" ids) ->
  all_space l = true -> all_space r = true ->
  image_ids_of
    (l ++ String.concat (String LF "") (map (fun id => id ++ "_leftImg8bit") ids)
       ++ r)
  = ids.
Proof.
  intros Hne Hall Hfirst Hl Hr.
  set (pieces := map (fun id => id ++ "_leftImg8bit") ids).
  assert (Hpne : pieces <> []) by (destruct ids; [contradiction | discriminate]).
  assert (Hpall : Forall (no_sep LF) pieces).
  { unfold pieces. apply Forall_map. eapply Forall_impl; [|exact Hall].
    intros id Hid. exact (no_sep_suffix id Hid). }
  assert (Hlast : last_char (String.concat (String LF "") pieces) = Some "t"%char).
  { apply last_char_concat; [exact Hpne|].
    unfold pieces. apply Forall_map. apply Forall_forall. intros id _.
    apply last_char_app. reflexivity. }
  assert (Hstart : starts_nonspace (String.concat (String LF "") pieces)).
  { unfold pieces. destruct ids as [|i0 ids]; [contradiction|].
    simpl in Hfirst. intros c t H.
    assert (Hpre : exists rest, String c t = (i0 ++ "_leftImg8bit") ++ rest).
    { rewrite <- H. cbn [map]. destruct (map _ ids) as [|q qs] eqn:E.
      - exists "". simpl. clear. induction (i0 ++ "_leftImg8bit"); simpl; congruence.
      - rewrite concat_cons by discriminate. eexists. reflexivity. }
    destruct Hpre as [rest Hpre].
    destruct i0 as [|c0 i0].
    - simpl in Hpre. injection Hpre as -> _. reflexivity.
    - simpl in Hpre. injection Hpre as -> _. exact (Hfirst c0 i0 eq_refl). }
  unfold image_ids_of.
  rewrite (strip_wrapped l _ r "t"%char Hl Hr Hstart Hlast eq_refl).
  rewrite (str_split_concat LF pieces Hpne Hpall).
  unfold pieces. rewrite map_map.
  rewrite <- (map_id ids) at 2. apply map_ext.
  intros id. exact (slice_suffix id).
Qed.

Lemma index_round_trip_witness :
  image_ids_of
    (" " ++ String.concat (String LF "")
                          (map (fun id => id ++ "_leftImg8bit") ["frame 1"; ""; "b"])
         ++ String LF "")
  = ["frame 1"; ""; "b"].
Proof.
  refine (index_round_trip ["frame 1"; ""; "b"] " " (String LF "") _ _ _ _ _).
  - discriminate.
  - repeat constructor; unfold no_sep; simpl; intuition discriminate.
  - intros c t H. injection H as <- _. reflexivity.
  - reflexivity.
  - reflexivity.
Defined.

Lemma lstrip_app (x r : string) :
  lstrip (x ++ r) = if all_space x then lstrip r else lstrip x ++ r.
Proof.
  induction x as [|c x IH]; simpl; [reflexivity|].
  destruct (is_space c); simpl; [exact IH | reflexivity].
Qed.

Lemma strip_surrounded (l x r : string) :
  all_space l = true -> all_space r = true -> strip (l ++ x ++ r) = strip x.
Proof.
  intros Hl Hr. unfold strip.
  rewrite (lstrip_app_space l _ Hl), lstrip_app.
  destruct (all_space x) eqn:Hx.
  - rewrite (lstrip_all_space r Hr), (lstrip_all_space x Hx). reflexivity.
  - now apply rstrip_app_space.
Qed.

(** X3. Whitespace before and after the content of an index file does not
    change the identifiers that are loaded. *)
Theorem index_ignores_surrounding_whitespace (l content r : string) :
  all_space l = true -> all_space r = true ->
  image_ids_of (l ++ content ++ r) = image_ids_of content.
Proof.
  intros Hl Hr. unfold image_ids_of. now rewrite (strip_surrounded l content r Hl Hr).
Qed.

Lemma index_ignores_surrounding_whitespace_witness :
  image_ids_of (String LF " " ++ "a_leftImg8bit" ++ String LF (String LF ""))
  = image_ids_of "a_leftImg8bit".
Proof.
  refine (index_ignores_surrounding_whitespace
            (String LF " ") "a_leftImg8bit" (String LF (String LF "")) _ _);
    reflexivity.
Defined.

Lemma str_split_app (sep : ascii) (x rest : string) :
  str_split sep (x ++ String sep rest)
  = (str_split sep x ++ str_split sep rest)%list.
Proof.
  induction x as [|c x IH]; simpl.
  - now rewrite Ascii.eqb_refl.
  - destruct (Ascii.eqb c sep); [now rewrite IH|].
    rewrite IH. pose proof (str_split_not_nil sep x) as Hne.
    destruct (str_split sep x); [contradiction | reflexivity].
Qed.

(** X4. A blank line inside an index file (two newlines in a row in the
    stripped content) loads as the empty identifier. *)
Theorem blank_line_gives_empty_id (content before after : string) :
  strip content = before ++ String LF (String LF after) ->
  In "" (image_ids_of content).
Proof.
  intros H. unfold image_ids_of. rewrite H, str_split_app.
  rewrite map_app. apply in_or_app. right.
  cbn [str_split]. rewrite Ascii.eqb_refl. left. reflexivity.
Qed.

Lemma blank_line_gives_empty_id_witness :
  In "" (image_ids_of ("a_leftImg8bit" ++ String LF (String LF "b_leftImg8bit"))).
Proof.
  refine (blank_line_gives_empty_id _ "a_leftImg8bit" "b_leftImg8bit" _).
  reflexivity.
Defined.

Lemma str_split_length (sep : ascii) (s : string) :
  List.length (str_split sep s) = S (count_char sep s).
Proof.
  induction s as [|c s IH]; simpl; [reflexivity|].
  destruct (Ascii.eqb c sep); simpl; [now rewrite IH|].
  pose proof (str_split_not_nil sep s) as Hne.
  destruct (str_split sep s); [contradiction | exact IH].
Qed.

(** X5. A list that [ingest] returns has one record per line of the
    stripped index files: three plus the number of newlines that remain in
    the three contents after [strip]. *)
Theorem ingest_record_count
        (json_load : string -> result json)
        (float_of_str : string -> option spec_float)
        (fs : FileSystem) (root train valid test : string)
        (rs : list annotated_image) :
  open_read fs (root ++ "/train.txt") = Ok train ->
  open_read fs (root ++ "/valid.txt") = Ok valid ->
  open_read fs (root ++ "/test.txt") = Ok test ->
  ingest json_load float_of_str fs root = Ok rs ->
  List.length rs
  = (3 + count_char LF (strip train) + count_char LF (strip valid)
     + count_char LF (strip test))%nat.
Proof.
  intros Ht Hv He Hrs.
  apply ingest_Ok_Forall2 in Hrs as (idx & Hidx & Hall).
  rewrite (_get_image_ids_read fs root train valid test Ht Hv He) in Hidx.
  injection Hidx as <-.
  apply Forall2_length in Hall. rewrite <- Hall.
  cbn [pairs_of flat_map fst snd].
  rewrite !length_app, !length_map.
  unfold image_ids_of. rewrite !length_map, !str_split_length. simpl. lia.
Qed.

Lemma ingest_record_count_witness :
  let index := "a_leftImg8bit" ++ String LF "b_leftImg8bit" ++ String LF "" in
  let rs :=
    map (fun p => {| image := {| image_id := snd p;
                                 image_path := get_image_path "data" (fst p) (snd p) "png";
                                 segmented_path := None;
                                 image_width := 40;
                                 image_height := 100 |};
                     detections := [] |})
        [("train", "a"); ("train", "b"); ("valid", "a"); ("valid", "b");
         ("test", "c")] in
  List.length rs
  = (3 + count_char LF (strip index) + count_char LF (strip index)
     + count_char LF (strip "c_leftImg8bit"))%nat.
Proof.
  intros index rs.
  refine (ingest_record_count (example_json_load []) no_float_of_str
            (example_fs (Some index) (Some index) (Some "c_leftImg8bit")
                        (Some "") (Some (40, 100)))
            "data" index index "c_leftImg8bit" rs _ _ _ _).
  - reflexivity.
  - reflexivity.
  - reflexivity.
  - vm_compute. reflexivity.
Defined.

Lemma image_ids_of_length (content : string) :
  (1 <= List.length (image_ids_of content))%nat.
Proof.
  unfold image_ids_of. rewrite length_map.
  pose proof (str_split_not_nil LF (strip content)) as H.
  destruct (str_split LF (strip content)); [contradiction | simpl; lia].
Qed.

(** X6. A loaded index has the three splits in order, each with at least
    one identifier, so a list that [ingest] returns is never shorter than
    three records. *)
Theorem ingest_at_least_three
        (json_load : string -> result json)
        (float_of_str : string -> option spec_float)
        (fs : FileSystem) (root : string) :
  (forall idx, _get_image_ids fs root = Ok idx ->
               map fst idx = sub_dirs /\ Forall (fun entry => snd entry <> []) idx)
  /\ (forall rs, ingest json_load float_of_str fs root = Ok rs ->
                 (3 <= List.length rs)%nat).
Proof.
  split.
  - intros idx Hidx.
    apply _get_image_ids_Ok in Hidx as (a & b & c & _ & _ & _ & ->).
    split; [reflexivity|].
    repeat constructor; cbn [snd]; intros H;
      match type of H with
      | image_ids_of ?x = [] => pose proof (image_ids_of_length x) as Hl;
                                rewrite H in Hl; simpl in Hl; lia
      end.
  - intros rs Hrs.
    apply ingest_Ok_Forall2 in Hrs as (idx & Hidx & Hall).
    apply Forall2_length in Hall. rewrite <- Hall.
    apply _get_image_ids_Ok in Hidx as (a & b & c & _ & _ & _ & ->).
    cbn [pairs_of flat_map fst snd]. rewrite !length_app, !length_map.
    pose proof (image_ids_of_length a). pose proof (image_ids_of_length b).
    pose proof (image_ids_of_length c). simpl. lia.
Qed.

(** ** What passes the filter *)

Lemma py_le_lt_trans (a b c : pynum) :
  py_le a b = true -> py_lt b c = true -> py_lt a c = true.
Proof.
  unfold py_le, py_lt.
  destruct (py_value a) as [| |p|], (py_value b) as [| |q|],
           (py_value c) as [| |r|]; cbn [xcompare];
    try discriminate; try reflexivity.
  destruct (p ?= q)%Q eqn:Hpq; try discriminate; intros _;
    destruct (q ?= r)%Q eqn:Hqr; try discriminate; intros _.
  - apply Qeq_alt in Hpq. apply Qlt_alt in Hqr. rewrite <- Hpq in Hqr.
    apply (proj1 (Qlt_alt _ _)) in Hqr. now rewrite Hqr.
  - apply Qlt_alt in Hpq. apply Qlt_alt in Hqr.
    pose proof (Qlt_trans _ _ _ Hpq Hqr) as H.
    apply (proj1 (Qlt_alt _ _)) in H. now rewrite H.
Qed.

Lemma py_lt_le_trans (a b c : pynum) :
  py_lt a b = true -> py_le b c = true -> py_lt a c = true.
Proof.
  unfold py_le, py_lt.
  destruct (py_value a) as [| |p|], (py_value b) as [| |q|],
           (py_value c) as [| |r|]; cbn [xcompare];
    try discriminate; try reflexivity.
  destruct (p ?= q)%Q eqn:Hpq; try discriminate; intros _;
    destruct (q ?= r)%Q eqn:Hqr; try discriminate; intros _.
  - apply Qlt_alt in Hpq. apply Qeq_alt in Hqr. rewrite Hqr in Hpq.
    apply (proj1 (Qlt_alt _ _)) in Hpq. now rewrite Hpq.
  - apply Qlt_alt in Hpq. apply Qlt_alt in Hqr.
    pose proof (Qlt_trans _ _ _ Hpq Hqr) as H.
    apply (proj1 (Qlt_alt _ _)) in H. now rewrite H.
Qed.

Lemma py_lt_le (a b : pynum) : py_lt a b = true -> py_le a b = true.
Proof.
  unfold py_lt, py_le.
  destruct (xcompare (py_value a) (py_value b)) as [[| |]|]; try discriminate.
  reflexivity.
Qed.

Lemma py_le_refl (a : pynum) : is_number a -> py_le a a = true.
Proof.
  unfold py_le, is_number.
  destruct (py_value a) as [| |p|]; cbn [xcompare]; intros H;
    try reflexivity; [contradiction|].
  assert (E : (p ?= p)%Q = Eq) by (apply Qeq_alt; reflexivity).
  now rewrite E.
Qed.

(** The low clamp never lowers a coordinate, the high clamp never raises
    one. *)
Lemma clamp_low_ge (v : spec_float) :
  is_number (clamp_low v) -> py_le (PyFloat v) (clamp_low v) = true.
Proof.
  unfold clamp_low. destruct (py_lt (PyFloat v) (PyInt 0)) eqn:H; intros Hn.
  - now apply py_lt_le.
  - now apply py_le_refl.
Qed.

Lemma clamp_high_le (bound : Z) (v : spec_float) :
  is_number (clamp_high bound v) ->
  py_le (clamp_high bound v) (PyFloat v) = true.
Proof.
  unfold clamp_high. destruct (py_ge (PyFloat v) (PyInt bound)) eqn:H; intros Hn.
  - assert (Hlt : py_lt (PyInt (bound - 1)) (PyInt bound) = true).
    { rewrite py_lt_int. apply Z.ltb_lt. lia. }
    apply py_lt_le.
    apply (py_lt_le_trans _ (PyInt bound)); [exact Hlt|].
    unfold py_ge in H. unfold py_le.
    rewrite (xcompare_antisym (py_value (PyFloat v)) (py_value (PyInt bound))).
    destruct (xcompare (py_value (PyFloat v)) (py_value (PyInt bound)))
      as [[| |]|]; try discriminate; reflexivity.
  - now apply py_le_refl.
Qed.

Lemma between_ints_finite (x : pynum) (a b : Z) :
  py_le (PyInt a) x = true -> py_lt x (PyInt b) = true -> finite x.
Proof.
  unfold py_le, py_lt, finite. cbn [py_value].
  destruct (py_value x) as [| |q|]; cbn [xcompare]; try discriminate.
  intros _ _. now exists q.
Qed.

(** X7. The four coordinates of every detection that [ingest] returns are
    finite numbers: a box with a NaN or an infinite edge left after clamping
    never reaches the output. *)
Theorem ingest_detections_finite
        (json_load : string -> result json)
        (float_of_str : string -> option spec_float)
        (fs : FileSystem) (root : string)
        (rs : list annotated_image) (r : annotated_image) (d : detection) :
  ingest json_load float_of_str fs root = Ok rs ->
  In r rs -> In d (detections r) ->
  finite (det_left d) /\ finite (det_right d)
  /\ finite (det_top d) /\ finite (det_bottom d).
Proof.
  intros Hrs Hr Hd.
  destruct (ingest_detection_origin json_load float_of_str fs root rs r d Hrs Hr Hd)
    as (_ & box & _ & _ & Hkeep & Hbox).
  destruct (detection_of_box_bounds _ _ _ _ _ Hbox Hkeep)
    as (H1 & H2 & H3 & H4 & H5 & H6).
  repeat split.
  - apply (between_ints_finite _ 0 (image_width (image r))); [exact H1|].
    apply (py_lt_le_trans _ (det_right d)); [exact H2 | now apply py_lt_le].
  - apply (between_ints_finite _ 0 (image_width (image r))); [|exact H3].
    apply py_lt_le. now apply (py_le_lt_trans _ (det_left d)).
  - apply (between_ints_finite _ 0 (image_height (image r))); [exact H4|].
    apply (py_lt_le_trans _ (det_bottom d)); [exact H5 | now apply py_lt_le].
  - apply (between_ints_finite _ 0 (image_height (image r))); [|exact H6].
    apply py_lt_le. now apply (py_le_lt_trans _ (det_top d)).
Qed.

Lemma ingest_detections_finite_witness :
  let box := example_box (JInt (-5)) (JInt 10) (JInt 50) (JInt 60) in
  let d := {| det_label := JStr "pedestrian";
              det_left := PyInt 0;
              det_top := PyFloat (b64 10 0);
              det_right := PyInt 39;
              det_bottom := PyFloat (b64 60 0) |} in
  finite (det_left d) /\ finite (det_right d)
  /\ finite (det_top d) /\ finite (det_bottom d).
Proof.
  intros box d.
  refine (ingest_detections_finite
            (example_json_load [box]) no_float_of_str
            (example_fs (Some "a_leftImg8bit") (Some "a_leftImg8bit")
                        (Some "a_leftImg8bit") (Some "") (Some (40, 100))) "data"
            _ {| image := {| image_id := "a";
                             image_path := "data/leftImg8bit/train/tsinghuaDaimlerDataset/a_leftImg8bit.png";
                             segmented_path := None;
                             image_width := 40;
                             image_height := 100 |};
                 detections := [d] |}
            d _ _ _).
  - vm_compute. reflexivity.
  - left. reflexivity.
  - left. reflexivity.
Defined.

(** X8. Clamping never repairs an inverted box: a detection passes the
    filter only if its box had [mincol < maxcol] and [minrow < maxrow] as
    floats. *)
Theorem kept_box_is_ordered
        (float_of_str : string -> option spec_float)
        (width height : Z) (box : json) (d : detection)
        (min_col max_col min_row max_row : spec_float) :
  detection_of_box float_of_str width height box = Ok d ->
  (v <- getitem box "mincol" ;; float_of_json float_of_str v) = Ok min_col ->
  (v <- getitem box "maxcol" ;; float_of_json float_of_str v) = Ok max_col ->
  (v <- getitem box "minrow" ;; float_of_json float_of_str v) = Ok min_row ->
  (v <- getitem box "maxrow" ;; float_of_json float_of_str v) = Ok max_row ->
  keep_detection d = true ->
  py_lt (PyFloat min_col) (PyFloat max_col) = true
  /\ py_lt (PyFloat min_row) (PyFloat max_row) = true.
Proof.
  intros Hbox F1 F2 F3 F4 Hkeep.
  apply detection_of_box_Ok in Hbox
    as (l & r & t & b & _ & E1 & E2 & E3 & E4 & Hl & Hr & Ht & Hb).
  rewrite F1 in E1. rewrite F2 in E2. rewrite F3 in E3. rewrite F4 in E4.
  injection E1 as <-. injection E2 as <-. injection E3 as <-. injection E4 as <-.
  apply andb_true_iff in Hkeep as [Hlr Htb].
  destruct (py_lt_is_number _ _ Hlr) as [Hnl Hnr].
  destruct (py_lt_is_number _ _ Htb) as [Hnt Hnb].
  rewrite Hl, Hr in *. rewrite Ht, Hb in *.
  split.
  - apply (py_le_lt_trans _ (clamp_low min_col)); [now apply clamp_low_ge|].
    apply (py_lt_le_trans _ (clamp_high width max_col)); [exact Hlr|].
    now apply clamp_high_le.
  - apply (py_le_lt_trans _ (clamp_low min_row)); [now apply clamp_low_ge|].
    apply (py_lt_le_trans _ (clamp_high height max_row)); [exact Htb|].
    now apply clamp_high_le.
Qed.

Lemma kept_box_is_ordered_witness :
  py_lt (PyFloat (b64 (-5) 0)) (PyFloat (b64 50 0)) = true
  /\ py_lt (PyFloat (b64 10 0)) (PyFloat (b64 60 0)) = true.
Proof.
  refine (kept_box_is_ordered no_float_of_str 40 100
            (example_box (JInt (-5)) (JInt 10) (JInt 50) (JInt 60))
            _ (binary_normalize 53 1024 (-5) 0 false) (b64 50 0) (b64 10 0) (b64 60 0)
            _ _ _ _ _ _).
  - vm_compute. reflexivity.
  - reflexivity.
  - reflexivity.
  - reflexivity.
  - reflexivity.
  - reflexivity.
Defined.

(** X9. A detection passes the filter only if its box meets the image:
    [mincol < width], [maxcol > 0], [minrow < height] and [maxrow > 0]. *)
Theorem kept_box_meets_image
        (float_of_str : string -> option spec_float)
        (width height : Z) (box : json) (d : detection)
        (min_col max_col min_row max_row : spec_float) :
  detection_of_box float_of_str width height box = Ok d ->
  (v <- getitem box "mincol" ;; float_of_json float_of_str v) = Ok min_col ->
  (v <- getitem box "maxcol" ;; float_of_json float_of_str v) = Ok max_col ->
  (v <- getitem box "minrow" ;; float_of_json float_of_str v) = Ok min_row ->
  (v <- getitem box "maxrow" ;; float_of_json float_of_str v) = Ok max_row ->
  keep_detection d = true ->
  py_lt (PyFloat min_col) (PyInt width) = true
  /\ py_lt (PyInt 0) (PyFloat max_col) = true
  /\ py_lt (PyFloat min_row) (PyInt height) = true
  /\ py_lt (PyInt 0) (PyFloat max_row) = true.
Proof.
  intros Hbox F1 F2 F3 F4 Hkeep.
  destruct (detection_of_box_bounds _ _ _ _ _ Hbox Hkeep)
    as (H1 & H2 & H3 & H4 & H5 & H6).
  apply detection_of_box_Ok in Hbox
    as (l & r & t & b & _ & E1 & E2 & E3 & E4 & Hl & Hr & Ht & Hb).
  rewrite F1 in E1. rewrite F2 in E2. rewrite F3 in E3. rewrite F4 in E4.
  injection E1 as <-. injection E2 as <-. injection E3 as <-. injection E4 as <-.
  destruct (py_lt_is_number _ _ H2) as [Hnl Hnr].
  destruct (py_lt_is_number _ _ H5) as [Hnt Hnb].
  rewrite Hl, Hr in *. rewrite Ht, Hb in *.
  repeat split.
  - apply (py_le_lt_trans _ (clamp_low min_col)); [now apply clamp_low_ge|].
    apply (py_lt_le_trans _ (clamp_high width max_col)); [exact H2|].
    now apply py_lt_le.
  - apply (py_lt_le_trans _ (clamp_high width max_col));
      [|now apply clamp_high_le].
    now apply (py_le_lt_trans _ (clamp_low min_col)).
  - apply (py_le_lt_trans _ (clamp_low min_row)); [now apply clamp_low_ge|].
    apply (py_lt_le_trans _ (clamp_high height max_row)); [exact H5|].
    now apply py_lt_le.
  - apply (py_lt_le_trans _ (clamp_high height max_row));
      [|now apply clamp_high_le].
    now apply (py_le_lt_trans _ (clamp_low min_row)).
Qed.

Lemma kept_box_meets_image_witness :
  py_lt (PyFloat (b64 (-5) 0)) (PyInt 40) = true
  /\ py_lt (PyInt 0) (PyFloat (b64 50 0)) = true
  /\ py_lt (PyFloat (b64 10 0)) (PyInt 100) = true
  /\ py_lt (PyInt 0) (PyFloat (b64 60 0)) = true.
Proof.
  refine (kept_box_meets_image no_float_of_str 40 100
            (example_box (JInt (-5)) (JInt 10) (JInt 50) (JInt 60))
            _ (binary_normalize 53 1024 (-5) 0 false) (b64 50 0) (b64 10 0) (b64 60 0)
            _ _ _ _ _ _).
  - vm_compute. reflexivity.
  - reflexivity.
  - reflexivity.
  - reflexivity.
  - reflexivity.
  - reflexivity.
Defined.

(** ** Integer coordinates *)

Lemma bit_length_small (n : Z) : 0 <= n < 2 ^ 53 -> bit_length n <= 53.
Proof.
  intros [H0 H]. unfold bit_length.
  destruct (Z.eqb_spec n 0) as [->|Hn]; [lia|].
  assert (Z.log2 n < 53) by (apply Z.log2_lt_pow2; lia). lia.
Qed.

(** [float] is exact on integers below [2^53] in magnitude. *)
Lemma float_of_int_exact (z : Z) :
  Z.abs z < 2 ^ 53 ->
  exists f q, float_of_int z = Ok f
              /\ float_value f = XFin q /\ (q == inject_Z z)%Q.
Proof.
  intros Hz.
  assert (Hr : rne53 (Z.abs z) = Z.abs z).
  { apply rne53_small. apply bit_length_small. lia. }
  assert (Hok : exists f, float_of_int z = Ok f).
  { unfold float_of_int. rewrite Hr.
    destruct (Z.leb_spec (2 ^ 1024) (Z.abs z)); [|eexists; reflexivity].
    assert (2 ^ 53 < 2 ^ 1024) by (vm_compute; reflexivity). lia. }
  destruct Hok as [f Hf]. exists f.
  destruct (float_of_int_value z f Hf) as (q & Hq & Hv).
  exists q. split; [exact Hf|]. split; [exact Hq|].
  rewrite Hv, Hr. destruct (Z.ltb_spec z 0); cbn [cond_Zopp];
    apply inject_Z_injective; lia.
Qed.

Lemma xcompare_ints (p q : Q) (a b : Z) :
  (p == inject_Z a)%Q -> (q == inject_Z b)%Q ->
  xcompare (XFin p) (XFin q) = Some (a ?= b).
Proof.
  intros Hp Hq. cbn [xcompare]. f_equal.
  rewrite (Qcompare_comp _ _ Hp _ _ Hq). apply Qcompare_inject_Z.
Qed.

(** A coordinate given as an integer in [0, bound), with the bound at most
    [2^53], is kept by both clamps with its exact value. *)
Lemma int_coordinate (z bound : Z) :
  0 <= z < bound -> bound <= 2 ^ 53 ->
  exists f q, float_of_int z = Ok f
              /\ float_value f = XFin q /\ (q == inject_Z z)%Q
              /\ clamp_low f = PyFloat f
              /\ clamp_high bound f = PyFloat f.
Proof.
  intros Hz Hb.
  destruct (float_of_int_exact z ltac:(lia)) as (f & q & Hf & Hq & Hv).
  exists f, q. repeat split; try assumption.
  - unfold clamp_low, py_lt. cbn [py_value]. rewrite Hq, (xcompare_int q z 0 Hv).
    destruct (z ?= 0) eqn:E; try reflexivity.
    apply (proj1 (Z.compare_lt_iff _ _)) in E. lia.
  - unfold clamp_high, py_ge. cbn [py_value].
    rewrite Hq, (xcompare_int q z bound Hv).
    destruct (z ?= bound) eqn:E; try reflexivity.
    + apply Z.compare_eq in E. lia.
    + apply (proj1 (Z.compare_gt_iff _ _)) in E. lia.
Qed.

(** X10. A box with integer coordinates inside the image,
    [0 <= mincol < maxcol < width] and [0 <= minrow < maxrow < height], for
    an image of at most [2^53] pixels each way, is emitted with exactly
    these values and passes the filter. *)
Theorem integer_box_exact
        (float_of_str : string -> option spec_float)
        (width height : Z) (box label : json) (mincol maxcol minrow maxrow : Z) :
  getitem box "identity" = Ok label ->
  getitem box "mincol" = Ok (JInt mincol) ->
  getitem box "maxcol" = Ok (JInt maxcol) ->
  getitem box "minrow" = Ok (JInt minrow) ->
  getitem box "maxrow" = Ok (JInt maxrow) ->
  0 <= mincol < maxcol -> maxcol < width -> width <= 2 ^ 53 ->
  0 <= minrow < maxrow -> maxrow < height -> height <= 2 ^ 53 ->
  exists d,
    detection_of_box float_of_str width height box = Ok d
    /\ keep_detection d = true
    /\ det_label d = label
    /\ py_eq (det_left d) (PyInt mincol) = true
    /\ py_eq (det_right d) (PyInt maxcol) = true
    /\ py_eq (det_top d) (PyInt minrow) = true
    /\ py_eq (det_bottom d) (PyInt maxrow) = true.
Proof.
  intros Hlabel H1 H2 H3 H4 Hcol Hmaxcol Hw Hrow Hmaxrow Hh.
  destruct (int_coordinate mincol width ltac:(lia) Hw)
    as (f1 & q1 & F1 & Q1 & V1 & L1 & _).
  destruct (int_coordinate maxcol width ltac:(lia) Hw)
    as (f2 & q2 & F2 & Q2 & V2 & _ & R2).
  destruct (int_coordinate minrow height ltac:(lia) Hh)
    as (f3 & q3 & F3 & Q3 & V3 & L3 & _).
  destruct (int_coordinate maxrow height ltac:(lia) Hh)
    as (f4 & q4 & F4 & Q4 & V4 & _ & R4).
  eexists. split.
  { apply (detection_of_box_fields float_of_str width height box label f1 f2 f3 f4);
      [exact Hlabel | | | |].
    - rewrite H1. exact F1.
    - rewrite H2. exact F2.
    - rewrite H3. exact F3.
    - rewrite H4. exact F4. }
  unfold keep_detection.
  cbn [det_label det_left det_right det_top det_bottom].
  rewrite L1, R2, L3, R4. unfold py_lt, py_eq. cbn [py_value].
  rewrite Q1, Q2, Q3, Q4.
  rewrite (xcompare_ints q1 q2 mincol maxcol V1 V2).
  rewrite (xcompare_ints q3 q4 minrow maxrow V3 V4).
  rewrite (xcompare_int q1 mincol mincol V1), (xcompare_int q2 maxcol maxcol V2).
  rewrite (xcompare_int q3 minrow minrow V3), (xcompare_int q4 maxrow maxrow V4).
  rewrite !Z.compare_refl.
  rewrite (proj2 (Z.compare_lt_iff mincol maxcol)) by lia.
  rewrite (proj2 (Z.compare_lt_iff minrow maxrow)) by lia.
  repeat split; reflexivity.
Qed.

Lemma integer_box_exact_witness :
  exists d,
    detection_of_box no_float_of_str 40 100
      (example_box (JInt 5) (JInt 10) (JInt 39) (JInt 99)) = Ok d
    /\ keep_detection d = true
    /\ det_label d = JStr "pedestrian"
    /\ py_eq (det_left d) (PyInt 5) = true
    /\ py_eq (det_right d) (PyInt 39) = true
    /\ py_eq (det_top d) (PyInt 10) = true
    /\ py_eq (det_bottom d) (PyInt 99) = true.
Proof.
  refine (integer_box_exact no_float_of_str 40 100
            (example_box (JInt 5) (JInt 10) (JInt 39) (JInt 99))
            (JStr "pedestrian") 5 39 10 99 _ _ _ _ _ _ _ _ _ _ _);
    try reflexivity; lia.
Defined.

Lemma rne53_threshold :
  rne53 overflow_threshold = 2 ^ 1024
  /\ rne53 (overflow_threshold - 1) = 2 ^ 1024 - 2 ^ 971.
Proof.
  split; vm_compute; reflexivity.
Qed.

(** X11. [float] of an integer raises [OverflowError] exactly from
    [2^1024 - 2^970] on in magnitude; a box whose [mincol] is such an
    integer makes the conversion of the box raise it. *)
Theorem huge_coordinate_overflows :
  (forall z, overflow_threshold <= Z.abs z ->
             float_of_int z = Raise OverflowError)
  /\ (forall z, Z.abs z < overflow_threshold -> exists f, float_of_int z = Ok f)
  /\ (forall float_of_str width height box label z,
         getitem box "identity" = Ok label ->
         getitem box "mincol" = Ok (JInt z) ->
         overflow_threshold <= Z.abs z ->
         detection_of_box float_of_str width height box = Raise OverflowError).
Proof.
  destruct rne53_threshold as [Hat Hbelow].
  assert (Hhigh : forall z, overflow_threshold <= Z.abs z ->
                            float_of_int z = Raise OverflowError).
  { intros z H. unfold float_of_int.
    pose proof (rne53_mono overflow_threshold (Z.abs z)) as Hm.
    assert (Hpos : 0 <= overflow_threshold) by (vm_compute; discriminate).
    specialize (Hm (conj Hpos H)). rewrite Hat in Hm.
    destruct (Z.leb_spec (2 ^ 1024) (rne53 (Z.abs z))); [reflexivity | lia]. }
  split; [exact Hhigh|]. split.
  - intros z H. unfold float_of_int.
    pose proof (rne53_mono (Z.abs z) (overflow_threshold - 1)) as Hm.
    specialize (Hm ltac:(lia)). rewrite Hbelow in Hm.
    assert (Hlt : 2 ^ 1024 - 2 ^ 971 < 2 ^ 1024) by (vm_compute; reflexivity).
    destruct (Z.leb_spec (2 ^ 1024) (rne53 (Z.abs z))); [lia|].
    eexists. reflexivity.
  - intros fos w h box label z Hlabel Hmincol Hz.
    unfold detection_of_box. rewrite Hlabel. cbn [bind].
    rewrite Hmincol. cbn [bind float_of_json]. rewrite (Hhigh z Hz). reflexivity.
Qed.

(** ** Label files that cannot be used *)

Lemma _get_detections_label_error
      (json_load : string -> result json)
      (float_of_str : string -> option spec_float)
      (fs : FileSystem) (fpath content : string) (width height : Z) (e : exn) :
  open_read fs fpath = Ok content ->
  label_error (json_load content) = Some e ->
  _get_detections json_load float_of_str fs fpath width height = Raise e.
Proof.
  intros Hread Herr. unfold _get_detections. rewrite Hread. cbn [of_option bind].
  unfold label_error in Herr.
  destruct (json_load content) as [j|e0]; cbn [of_option bind].
  - destruct j; try (injection Herr as <-; reflexivity).
    cbn [getitem]. destruct (assoc "children" members) as [c|]; cbn [of_option bind].
    + destruct c; try discriminate Herr; injection Herr as <-; reflexivity.
    + injection Herr as <-. reflexivity.
  - injection Herr as <-. reflexivity.
Qed.

(** X12. A label file of a listed identifier that can be read but that the
    parser rejects, or that is not an object, has no [children], or has a
    [children] that cannot be iterated, makes the per-image pipeline raise
    the parser's own exception, [TypeError], [KeyError children] or
    [TypeError] once the image is open, and makes [ingest] raise. *)
Theorem ingest_malformed_label
        (json_load : string -> result json)
        (float_of_str : string -> option spec_float)
        (fs : FileSystem) (root : string)
        (idx : list (string * list string)) (p : string * string)
        (content : string) (e : exn) :
  _get_image_ids fs root = Ok idx ->
  In p (pairs_of idx) ->
  open_read fs (get_label_path root (fst p) (snd p)) = Ok content ->
  label_error (json_load content) = Some e ->
  (forall dims,
      image_open fs (get_image_path root (fst p) (snd p) "png") = Ok dims ->
      _get_image_detection json_load float_of_str fs root (fst p) (snd p) "png"
      = Raise e)
  /\ exists e', ingest json_load float_of_str fs root = Raise e'.
Proof.
  intros Hidx Hp Hread Herr.
  assert (Hproc : forall dims,
             image_open fs (get_image_path root (fst p) (snd p) "png") = Ok dims ->
             _get_image_detection json_load float_of_str fs root (fst p) (snd p) "png"
             = Raise e).
  { intros [w h] Hopen. unfold _get_image_detection, _image_dimensions.
    rewrite Hopen. cbn [of_option bind].
    now rewrite (_get_detections_label_error _ _ _ _ _ w h e Hread Herr). }
  split; [exact Hproc|].
  rewrite ingest_mapM, Hidx. cbn [bind].
  destruct (image_open fs (get_image_path root (fst p) (snd p) "png"))
    as [dims|e0] eqn:Hopen.
  - exact (mapM_In_Raise (process_pair json_load float_of_str fs root)
             (pairs_of idx) p e Hp (Hproc dims eq_refl)).
  - exact (mapM_In_Raise (process_pair json_load float_of_str fs root)
             (pairs_of idx) p e0 Hp
             (_get_image_detection_no_image json_load float_of_str fs root
                (fst p) (snd p) "png" e0 Hopen)).
Qed.

Lemma ingest_malformed_label_witness :
  let index := Some "a_leftImg8bit" in
  let fs := example_fs index index index (Some "[[[[") (Some (40, 100)) in
  let load := fun _ : string => @Raise json RecursionError in
  (forall dims,
      image_open fs (get_image_path "data" "train" "a" "png") = Ok dims ->
      _get_image_detection load no_float_of_str fs "data" "train" "a" "png"
      = Raise RecursionError)
  /\ exists e', ingest load no_float_of_str fs "data" = Raise e'.
Proof.
  intros index fs load.
  refine (ingest_malformed_label load no_float_of_str fs "data"
            [("train", ["a"]); ("valid", ["a"]); ("test", ["a"])]
            ("train", "a") "[[[[" RecursionError _ _ _ _).
  - reflexivity.
  - simpl; tauto.
  - reflexivity.
  - reflexivity.
Defined.

(** X13. When [children] is a string or an object instead of a list, the
    loop goes through its characters or its keys: an empty one gives no
    detection and no exception, any other one raises [TypeError] at its
    first element. *)
Theorem children_not_a_list
        (json_load : string -> result json)
        (float_of_str : string -> option spec_float)
        (fs : FileSystem) (fpath content : string) (f_json : json)
        (width height : Z) :
  open_read fs fpath = Ok content ->
  json_load content = Ok f_json ->
  (getitem f_json "children" = Ok (JStr "")
   \/ getitem f_json "children" = Ok (JObj []) ->
   _get_detections json_load float_of_str fs fpath width height = Ok [])
  /\ (forall c s, getitem f_json "children" = Ok (JStr (String c s)) ->
                  _get_detections json_load float_of_str fs fpath width height
                  = Raise TypeError)
  /\ (forall member members,
         getitem f_json "children" = Ok (JObj (member :: members)) ->
         _get_detections json_load float_of_str fs fpath width height
         = Raise TypeError).
Proof.
  intros Hread Hjson. unfold _get_detections.
  rewrite Hread. cbn [of_option bind]. rewrite Hjson. cbn [of_option bind].
  split; [|split].
  - intros [H|H]; rewrite H; reflexivity.
  - intros c s H. rewrite H. reflexivity.
  - intros member members H. rewrite H. reflexivity.
Qed.

Lemma children_not_a_list_witness :
  let fs := example_fs None None None (Some "") (Some (40, 100)) in
  let load := fun _ : string => Ok (JObj [("children", JStr "ab")]) in
  _get_detections load no_float_of_str fs "label.json" 40 100 = Raise TypeError.
Proof.
  intros fs load.
  refine (proj1 (proj2 (children_not_a_list load no_float_of_str fs "label.json" ""
                          (JObj [("children", JStr "ab")]) 40 100 _ _))
            "a"%char "b" _).
  - reflexivity.
  - reflexivity.
  - reflexivity.
Defined.

(** X14. A box that lacks one of [identity], [mincol], [maxcol], [minrow],
    [maxrow] raises [KeyError] for the first of them that is missing, in
    this order, when the fields before it are present and convertible. *)
Theorem box_missing_key
        (float_of_str : string -> option spec_float)
        (width height : Z) (members : list (string * json))
        (before after : list string) (key : string) :
  box_keys = (before ++ key :: after)%list ->
  (forall k, In k before ->
             exists v, assoc k members = Some v
                       /\ (k <> "identity" ->
                           exists f, float_of_json float_of_str v = Ok f)) ->
  assoc key members = None ->
  detection_of_box float_of_str width height (JObj members)
  = Raise (KeyError key).
Proof.
  intros Hkeys Hbefore Hnone. unfold detection_of_box. cbn [getitem].
  assert (Hpresent : forall k, In k before -> k <> "identity" ->
             exists f, (v <- of_option (KeyError k) (assoc k members) ;;
                        float_of_json float_of_str v) = Ok f).
  { intros k Hk Hne. destruct (Hbefore k Hk) as (v & Hv & Hf).
    destruct (Hf Hne) as [f Hfv]. exists f. rewrite Hv. exact Hfv. }
  assert (Hid : In "identity" before ->
                exists v, of_option (KeyError "identity") (assoc "identity" members)
                          = Ok v).
  { intros Hk. destruct (Hbefore _ Hk) as (v & Hv & _). exists v. now rewrite Hv. }
  unfold box_keys in Hkeys.
  destruct before as [|k1 [|k2 [|k3 [|k4 [|k5 before]]]]];
    simpl in Hkeys; injection Hkeys; intros; subst; clear Hkeys.
  - rewrite Hnone. reflexivity.
  - destruct Hid as [v ->]; [simpl; tauto|]. cbn [bind].
    rewrite Hnone. reflexivity.
  - destruct Hid as [v ->]; [simpl; tauto|]. cbn [bind].
    destruct (Hpresent "mincol") as [f1 ->]; [simpl; tauto | discriminate |].
    cbn [bind]. rewrite Hnone. reflexivity.
  - destruct Hid as [v ->]; [simpl; tauto|]. cbn [bind].
    destruct (Hpresent "mincol") as [f1 ->]; [simpl; tauto | discriminate |].
    cbn [bind].
    destruct (Hpresent "maxcol") as [f2 ->]; [simpl; tauto | discriminate |].
    cbn [bind]. rewrite Hnone. reflexivity.
  - destruct Hid as [v ->]; [simpl; tauto|]. cbn [bind].
    destruct (Hpresent "mincol") as [f1 ->]; [simpl; tauto | discriminate |].
    cbn [bind].
    destruct (Hpresent "maxcol") as [f2 ->]; [simpl; tauto | discriminate |].
    cbn [bind].
    destruct (Hpresent "minrow") as [f3 ->]; [simpl; tauto | discriminate |].
    cbn [bind]. rewrite Hnone. reflexivity.
  - destruct before; discriminate.
Qed.

Lemma box_missing_key_witness :
  detection_of_box no_float_of_str 40 100
    (JObj [("identity", JStr "cyclist"); ("mincol", JInt 3); ("minrow", JInt 4)])
  = Raise (KeyError "maxcol").
Proof.
  refine (box_missing_key no_float_of_str 40 100
            [("identity", JStr "cyclist"); ("mincol", JInt 3); ("minrow", JInt 4)]
            ["identity"; "mincol"] ["minrow"; "maxrow"] "maxcol" _ _ _).
  - reflexivity.
  - intros k [<-|[<-|[]]].
    + eexists. split; [reflexivity|]. intros H. now contradiction H.
    + eexists. split; [reflexivity|]. intros _. eexists. reflexivity.
  - reflexivity.
Defined.

(** X15. One box that cannot be converted makes [_get_detections] raise
    for the whole label file, whatever the other boxes are, and makes
    [ingest] raise. *)
Theorem bad_box_aborts
        (json_load : string -> result json)
        (float_of_str : string -> option spec_float)
        (fs : FileSystem) (root : string)
        (idx : list (string * list string)) (p : string * string)
        (content : string) (f_json : json) (boxes : list json)
        (box : json) (e : exn) :
  _get_image_ids fs root = Ok idx ->
  In p (pairs_of idx) ->
  open_read fs (get_label_path root (fst p) (snd p)) = Ok content ->
  json_load content = Ok f_json ->
  getitem f_json "children" = Ok (JArr boxes) ->
  In box boxes ->
  (forall width height,
      detection_of_box float_of_str width height box = Raise e) ->
  (forall width height,
      exists e', _get_detections json_load float_of_str fs
                   (get_label_path root (fst p) (snd p)) width height = Raise e')
  /\ exists e', ingest json_load float_of_str fs root = Raise e'.
Proof.
  intros Hidx Hp Hread Hjson Hchildren Hbox Hraise.
  assert (Hdets : forall width height,
             exists e', _get_detections json_load float_of_str fs
                          (get_label_path root (fst p) (snd p)) width height
                        = Raise e').
  { intros w h. unfold _get_detections.
    rewrite Hread. cbn [of_option bind]. rewrite Hjson. cbn [of_option bind].
    rewrite Hchildren. cbn [bind py_iter]. rewrite for_append_mapM.
    destruct (mapM_In_Raise (detection_of_box float_of_str w h) boxes box e
                Hbox (Hraise w h)) as [e' He'].
    exists e'. now rewrite He'. }
  split; [exact Hdets|].
  rewrite ingest_mapM, Hidx. cbn [bind].
  assert (Hproc : exists e', process_pair json_load float_of_str fs root p = Raise e').
  { unfold process_pair, _get_image_detection, _image_dimensions.
    destruct (image_open fs (get_image_path root (fst p) (snd p) "png"))
      as [[w h]|]; cbn [of_option bind]; [|eexists; reflexivity].
    destruct (Hdets w h) as [e' ->]. eexists; reflexivity. }
  destruct Hproc as [e' He'].
  exact (mapM_In_Raise _ _ p e' Hp He').
Qed.

Lemma bad_box_aborts_witness :
  let index := Some "a_leftImg8bit" in
  let fs := example_fs index index index (Some "") (Some (40, 100)) in
  let good := example_box (JInt 1) (JInt 2) (JInt 3) (JInt 4) in
  let bad := example_box (JInt 1) (JInt 2) JNull (JInt 4) in
  (forall width height,
      exists e', _get_detections (example_json_load [good; bad]) no_float_of_str fs
                   (get_label_path "data" "test" "a") width height = Raise e')
  /\ exists e', ingest (example_json_load [good; bad]) no_float_of_str fs "data"
                = Raise e'.
Proof.
  intros index fs good bad.
  refine (bad_box_aborts (example_json_load [good; bad]) no_float_of_str fs "data"
            [("train", ["a"]); ("valid", ["a"]); ("test", ["a"])]
            ("test", "a") "" (JObj [("children", JArr [good; bad])])
            [good; bad] bad TypeError _ _ _ _ _ _ _).
  - reflexivity.
  - simpl; tauto.
  - reflexivity.
  - reflexivity.
  - reflexivity.
  - right. left. reflexivity.
  - intros w h. reflexivity.
Defined.

(** ** The run as a whole *)

(** X16. [ingest] raises the exception of the first (split, identifier)
    pair, in processing order, whose pipeline raises. *)
Theorem ingest_first_failure
        (json_load : string -> result json)
        (float_of_str : string -> option spec_float)
        (fs : FileSystem) (root : string)
        (idx : list (string * list string))
        (before after : list (string * string)) (p : string * string) (e : exn) :
  _get_image_ids fs root = Ok idx ->
  pairs_of idx = (before ++ p :: after)%list ->
  (forall q, In q before ->
             exists r, _get_image_detection json_load float_of_str fs root
                         (fst q) (snd q) "png" = Ok r) ->
  _get_image_detection json_load float_of_str fs root (fst p) (snd p) "png"
  = Raise e ->
  ingest json_load float_of_str fs root = Raise e.
Proof.
  intros Hidx Hpairs Hbefore Hp.
  rewrite ingest_mapM, Hidx. cbn [bind]. rewrite Hpairs.
  now apply mapM_first_Raise.
Qed.

Lemma ingest_first_failure_witness :
  let index := Some "a_leftImg8bit" in
  ingest (example_json_load []) no_float_of_str
    (example_fs index index index None (Some (40, 100))) "data"
  = Raise (OSError "data/labelData/train/tsinghuaDaimlerDataset/a_labelData.json").
Proof.
  intros index.
  refine (ingest_first_failure (example_json_load []) no_float_of_str
            (example_fs index index index None (Some (40, 100))) "data"
            [("train", ["a"]); ("valid", ["a"]); ("test", ["a"])]
            [] [("valid", "a"); ("test", "a")] ("train", "a") _ _ _ _ _).
  - reflexivity.
  - reflexivity.
  - intros q [].
  - reflexivity.
Defined.

(** X17. The index files are read before any image: when reading the index
    file of a split raises and those of the splits before it can be read,
    [ingest] raises the exception of that read, whatever the images and
    the label files are. *)
Theorem ingest_unreadable_index
        (json_load : string -> result json)
        (float_of_str : string -> option spec_float)
        (fs : FileSystem) (root : string)
        (before after : list string) (sub_dir : string) (e : exn) :
  sub_dirs = (before ++ sub_dir :: after)%list ->
  (forall s, In s before ->
             exists content, open_read fs (root ++ "/" ++ s ++ ".txt") = Ok content) ->
  open_read fs (root ++ "/" ++ sub_dir ++ ".txt") = Raise e ->
  ingest json_load float_of_str fs root = Raise e.
Proof.
  intros Hsplit Hbefore Hraise.
  rewrite ingest_mapM. unfold _get_image_ids.
  rewrite for_append_mapM, Hsplit.
  rewrite mapM_first_Raise with (e := e).
  - reflexivity.
  - intros s Hs. destruct (Hbefore s Hs) as [content Hcontent]. cbv zeta.
    change (index_path root s) with (root ++ "/" ++ s ++ ".txt").
    rewrite Hcontent. eexists. reflexivity.
  - cbv zeta. change (index_path root sub_dir) with (root ++ "/" ++ sub_dir ++ ".txt").
    now rewrite Hraise.
Qed.

Lemma ingest_unreadable_index_witness :
  let fs := {| isdir := fun _ => true;
               open_read := fun p =>
                 if String.eqb p "data/train.txt" then Ok "a_leftImg8bit"
                 else if String.eqb p "data/valid.txt" then Raise UnicodeDecodeError
                 else Raise (OSError p);
               image_open := fun p => Raise (OSError p) |} in
  ingest (example_json_load []) no_float_of_str fs "data"
  = Raise UnicodeDecodeError.
Proof.
  intros fs.
  refine (ingest_unreadable_index (example_json_load []) no_float_of_str
            fs "data" ["train"] ["test"] "valid" UnicodeDecodeError _ _ _).
  - reflexivity.
  - intros s [<-|[]]. eexists. reflexivity.
  - reflexivity.
Defined.

Lemma pairs_of_sub_dir (fs : FileSystem) (root : string)
      (idx : list (string * list string)) (p : string * string) :
  _get_image_ids fs root = Ok idx -> In p (pairs_of idx) -> In (fst p) sub_dirs.
Proof.
  intros Hidx Hp.
  apply _get_image_ids_Ok in Hidx as (a & b & c & _ & _ & _ & ->).
  unfold pairs_of in Hp. apply in_flat_map in Hp as (entry & Hentry & Hp).
  apply in_map_iff in Hp as (id & <- & _). cbn [fst].
  simpl in Hentry. destruct Hentry as [<-|[<-|[<-|[]]]]; simpl; tauto.
Qed.

(** X18. In every record that [ingest] returns, the width and the height
    are those that the image file at the record's path gives, the
    segmented path is absent, the path is the image path of the record's
    identifier in one of the three splits, and the label file of that
    identifier could be read. *)
Theorem ingest_record_image
        (json_load : string -> result json)
        (float_of_str : string -> option spec_float)
        (fs : FileSystem) (root : string)
        (rs : list annotated_image) (r : annotated_image) :
  ingest json_load float_of_str fs root = Ok rs ->
  In r rs ->
  image_open fs (image_path (image r))
  = Ok (image_width (image r), image_height (image r))
  /\ segmented_path (image r) = None
  /\ exists sub_dir,
      In sub_dir sub_dirs
      /\ image_path (image r)
         = get_image_path root sub_dir (image_id (image r)) "png"
      /\ exists content,
          open_read fs (get_label_path root sub_dir (image_id (image r)))
          = Ok content.
Proof.
  intros Hrs Hr.
  apply ingest_Ok_Forall2 in Hrs as (idx & Hidx & Hall).
  destruct (Forall2_In_r _ _ _ _ Hall Hr) as (p & Hp & Hproc).
  apply _get_image_detection_Ok in Hproc as (w & h & dets & Hopen & Hdets & Hi & _).
  rewrite Hi. cbn [image_path image_width image_height segmented_path image_id].
  split; [exact Hopen|]. split; [reflexivity|].
  exists (fst p). split; [exact (pairs_of_sub_dir fs root idx p Hidx Hp)|].
  split; [reflexivity|].
  apply _get_detections_Ok in Hdets as (content & _ & _ & _ & Hread & _).
  exists content. exact Hread.
Qed.

Lemma ingest_record_image_witness :
  let index := Some "a_leftImg8bit" in
  let fs := example_fs index index index (Some "") (Some (40, 100)) in
  let r := {| image := {| image_id := "a";
                          image_path := "data/leftImg8bit/valid/tsinghuaDaimlerDataset/a_leftImg8bit.png";
                          segmented_path := None;
                          image_width := 40;
                          image_height := 100 |};
              detections := [] |} in
  image_open fs (image_path (image r))
  = Ok (image_width (image r), image_height (image r))
  /\ segmented_path (image r) = None
  /\ exists sub_dir,
      In sub_dir sub_dirs
      /\ image_path (image r)
         = get_image_path "data" sub_dir (image_id (image r)) "png"
      /\ exists content,
          open_read fs (get_label_path "data" sub_dir (image_id (image r)))
          = Ok content.
Proof.
  intros index fs r.
  refine (ingest_record_image (example_json_load []) no_float_of_str fs "data"
            _ r _ _).
  - vm_compute. reflexivity.
  - right. left. reflexivity.
Defined.

Lemma well_formed_box_Ok (float_of_str : string -> option spec_float)
      (width height : Z) (box : json) :
  well_formed_box float_of_str box ->
  exists d, detection_of_box float_of_str width height box = Ok d.
Proof.
  intros [[label Hlabel] Hfields].
  inversion Hfields as [|? ? [f1 H1] Hf2]; subst.
  inversion Hf2 as [|? ? [f2 H2] Hf3]; subst.
  inversion Hf3 as [|? ? [f3 H3] Hf4]; subst.
  inversion Hf4 as [|? ? [f4 H4] _]; subst.
  eexists. exact (detection_of_box_fields float_of_str width height box label
                    f1 f2 f3 f4 Hlabel H1 H2 H3 H4).
Qed.

Lemma process_pairs_ids
      (json_load : string -> result json)
      (float_of_str : string -> option spec_float)
      (fs : FileSystem) (root : string)
      (ps : list (string * string)) (rs : list annotated_image) :
  Forall2 (fun p r => process_pair json_load float_of_str fs root p = Ok r) ps rs ->
  map (fun r => image_id (image r)) rs = map snd ps.
Proof.
  induction 1 as [|p r ps rs Hp _ IH]; [reflexivity|].
  simpl. apply process_pair_Ok_image in Hp as [-> _]. now rewrite IH.
Qed.

(** X19. [ingest] returns a list, with the identifiers in order, as soon
    as the index loads and every listed identifier has an image that opens
    and a label file that parses to an object whose [children] is a list
    of boxes, each with an [identity] and four convertible coordinates. *)
Theorem ingest_succeeds
        (json_load : string -> result json)
        (float_of_str : string -> option spec_float)
        (fs : FileSystem) (root : string)
        (idx : list (string * list string)) :
  _get_image_ids fs root = Ok idx ->
  (forall p, In p (pairs_of idx) ->
             (exists dims,
                 image_open fs (get_image_path root (fst p) (snd p) "png")
                 = Ok dims)
             /\ well_formed_label json_load float_of_str fs
                  (get_label_path root (fst p) (snd p))) ->
  exists rs,
    ingest json_load float_of_str fs root = Ok rs
    /\ map (fun r => image_id (image r)) rs = map snd (pairs_of idx).
Proof.
  intros Hidx Hall.
  assert (Htotal : exists rs, ingest json_load float_of_str fs root = Ok rs).
  { rewrite ingest_mapM, Hidx. cbn [bind]. apply mapM_total.
    intros p Hp. destruct (Hall p Hp) as [[[w h] Hopen] Hlabel].
    unfold process_pair, _get_image_detection, _image_dimensions.
    rewrite Hopen. cbn [bind].
    destruct Hlabel as (content & f_json & boxes & Hread & Hjson & Hchildren & Hboxes).
    unfold _get_detections. rewrite Hread. cbn [of_option bind].
    rewrite Hjson. cbn [of_option bind]. rewrite Hchildren. cbn [bind py_iter].
    rewrite for_append_mapM.
    destruct (mapM_total (detection_of_box float_of_str w h) boxes) as [dets ->].
    - intros box Hbox. apply well_formed_box_Ok.
      exact (proj1 (Forall_forall _ _) Hboxes box Hbox).
    - eexists. reflexivity. }
  destruct Htotal as [rs Hrs]. exists rs. split; [exact Hrs|].
  apply ingest_Ok_Forall2 in Hrs as (idx' & Hidx' & HF).
  rewrite Hidx in Hidx'. injection Hidx' as <-.
  exact (process_pairs_ids json_load float_of_str fs root _ _ HF).
Qed.

Lemma ingest_succeeds_witness :
  let index := Some "a_leftImg8bit" in
  let box := example_box (JInt 5) (JInt 10) (JInt 39) (JInt 99) in
  exists rs,
    ingest (example_json_load [box]) no_float_of_str
      (example_fs index index index (Some "") (Some (40, 100))) "data" = Ok rs
    /\ map (fun r => image_id (image r)) rs = ["a"; "a"; "a"].
Proof.
  intros index box.
  refine (ingest_succeeds (example_json_load [box]) no_float_of_str
            (example_fs index index index (Some "") (Some (40, 100))) "data"
            [("train", ["a"]); ("valid", ["a"]); ("test", ["a"])] _ _).
  - reflexivity.
  - intros p Hp. split; [eexists; reflexivity|].
    exists "", (JObj [("children", JArr [box])]), [box].
    split; [simpl in Hp; destruct Hp as [<-|[<-|[<-|[]]]]; reflexivity|].
    split; [reflexivity|]. split; [reflexivity|].
    constructor; [|constructor].
    split; [eexists; reflexivity|].
    repeat constructor; eexists; reflexivity.
Defined.

Lemma mapM_ext_in {A B : Type} (f g : A -> result B) (xs : list A) :
  (forall x, In x xs -> f x = g x) -> mapM f xs = mapM g xs.
Proof.
  induction xs as [|x xs IH]; simpl; intros H; [reflexivity|].
  rewrite (H x (or_introl eq_refl)), IH; [reflexivity|].
  intros a Ha. apply H. now right.
Qed.

(** X20. [ingest] depends on the three index files and on the image and
    label file of every listed identifier, and on nothing else: two file
    systems that agree on these give the same result. *)
Theorem ingest_reads_only_listed
        (json_load : string -> result json)
        (float_of_str : string -> option spec_float)
        (fs1 fs2 : FileSystem) (root : string) :
  (forall sub_dir, In sub_dir sub_dirs ->
                   open_read fs1 (root ++ "/" ++ sub_dir ++ ".txt")
                   = open_read fs2 (root ++ "/" ++ sub_dir ++ ".txt")) ->
  (forall idx p,
      _get_image_ids fs1 root = Ok idx -> In p (pairs_of idx) ->
      image_open fs1 (get_image_path root (fst p) (snd p) "png")
      = image_open fs2 (get_image_path root (fst p) (snd p) "png")
      /\ open_read fs1 (get_label_path root (fst p) (snd p))
         = open_read fs2 (get_label_path root (fst p) (snd p))) ->
  ingest json_load float_of_str fs1 root = ingest json_load float_of_str fs2 root.
Proof.
  intros Hindex Hfiles.
  assert (Hids : _get_image_ids fs1 root = _get_image_ids fs2 root).
  { rewrite !_get_image_ids_unrolled. unfold read_index.
    change (index_path root "train") with (root ++ "/" ++ "train" ++ ".txt").
    change (index_path root "valid") with (root ++ "/" ++ "valid" ++ ".txt").
    change (index_path root "test") with (root ++ "/" ++ "test" ++ ".txt").
    rewrite (Hindex "train"), (Hindex "valid"), (Hindex "test")
      by (simpl; tauto).
    reflexivity. }
  rewrite !ingest_mapM, <- Hids.
  destruct (_get_image_ids fs1 root) as [idx|e] eqn:Hidx; [|reflexivity].
  cbn [bind]. apply mapM_ext_in. intros p Hp.
  destruct (Hfiles idx p eq_refl Hp) as [Himg Hlabel].
  unfold process_pair, _get_image_detection, _image_dimensions, _get_detections.
  now rewrite Himg, Hlabel.
Qed.

Lemma ingest_reads_only_listed_witness :
  let index := Some "a_leftImg8bit" in
  let fs1 := example_fs index index index (Some "") (Some (40, 100)) in
  let fs2 := {| isdir := fun _ => false;
                open_read := fun p => if String.eqb p "notes.txt"
                                      then Raise UnicodeDecodeError
                                      else open_read fs1 p;
                image_open := image_open fs1 |} in
  ingest (example_json_load []) no_float_of_str fs1 "data"
  = ingest (example_json_load []) no_float_of_str fs2 "data".
Proof.
  intros index fs1 fs2.
  refine (ingest_reads_only_listed (example_json_load []) no_float_of_str
            fs1 fs2 "data" _ _).
  - intros s [<-|[<-|[<-|[]]]]; reflexivity.
  - intros idx p Hidx Hp. vm_compute in Hidx. injection Hidx as <-.
    simpl in Hp. destruct Hp as [<-|[<-|[<-|[]]]]; split; reflexivity.
Defined.

(** ** What [validate] looks at *)

Lemma validate_dirs_ext (fs1 fs2 : FileSystem) (path : string) (dirs : list string) :
  (forall d, In d dirs -> isdir fs1 (path ++ "/" ++ d) = isdir fs2 (path ++ "/" ++ d)) ->
  validate_dirs fs1 path dirs = validate_dirs fs2 path dirs.
Proof.
  induction dirs as [|d dirs IH]; intros H; cbn [validate_dirs]; [reflexivity|].
  rewrite (H d (or_introl eq_refl)), IH; [reflexivity|].
  intros d' Hd'. apply H. now right.
Qed.

(** X21. [validate] depends on whether the six expected subdirectories are
    directories and on nothing else: two file systems that agree on these
    six give the same answer, whatever files and other directories they
    hold. *)
Theorem validate_reads_only_expected_dirs (fs1 fs2 : FileSystem) (path : string) :
  (forall d, In d expected_dirs ->
             isdir fs1 (path ++ "/" ++ d) = isdir fs2 (path ++ "/" ++ d)) ->
  validate fs1 path = validate fs2 path.
Proof.
  intros H. unfold validate. now apply validate_dirs_ext.
Qed.

Lemma validate_reads_only_expected_dirs_witness :
  let fs1 := example_fs None None None None None in
  let fs2 := {| isdir := fun p => negb (String.eqb p "data/leftImg8bit/extra");
                open_read := fun _ => Ok "";
                image_open := fun _ => Ok (1, 1) |} in
  validate fs1 "data" = validate fs2 "data".
Proof.
  intros fs1 fs2.
  refine (validate_reads_only_expected_dirs fs1 fs2 "data" _).
  intros d Hd. simpl in Hd.
  destruct Hd as [<-|[<-|[<-|[<-|[<-|[<-|[]]]]]]]; reflexivity.
Defined.

(** ** Counting the records *)







